(** * recoversb.c: clearing the read-only flag of a mounted ext4 filesystem

    A shallow embedding of [src/recoversb.c] (the [clear_sb_ro] kernel
    module) and the properties of its three functions:
    [find_ext4_superblock_by_dev], [clear_device_store] and
    [clear_device_show].

    Conventions of the embedding.
    - A [char] is an [ascii]; a [char] array is a [list ascii] indexed from 0.
    - A [const char *] argument is the list of the bytes it points to, up to
      the terminating NUL of its allocation: reading at the end of the list
      reads that terminator.
    - A [struct super_block *] is the position of the record in the host's
      list of super blocks, so that a write through the pointer is seen by
      every later reader of the list.
    - [size_t] and [unsigned long] are 64-bit: values in [Z] with the
      wrap-around written out where the code converts or complements.  The
      local [len], which stays between 0 and 63, indexes the array as a
      [nat].
    - An access outside [clear_device], or through a pointer to no record,
      is a fault: the computation has no result. *)

From Stdlib Require Import ZArith Ascii String List Lia.
From stdpp Require Import base option list strings.

#[local] Open Scope Z_scope.

(** ** Characters and C strings *)

Definition NUL : ascii := "000"%char.
Definition LF : ascii := "010"%char.
Definition CR : ascii := "013"%char.

(** The characters of a string literal, without its terminator. *)
Definition chars (s : string) : list ascii := list_ascii_of_string s.

(** [*p] for a [const char *p]: the terminator is read at the end. *)
Definition deref (p : list ascii) : ascii := hd NUL p.

(** The value of a C string: the bytes before the first NUL. *)
Fixpoint cstr (p : list ascii) : list ascii :=
  match p with
  | [] => []
  | c :: p' => if Ascii.eqb c NUL then [] else c :: cstr p'
  end.

(** [strcmp] of lib/string.c: byte-wise comparison as [unsigned char],
    stopping at the first difference or at the terminator. *)
Fixpoint strcmp (cs ct : list ascii) : Z :=
  let c1 := deref cs in
  let c2 := deref ct in
  if negb (Ascii.eqb c1 c2) then
    if (N_of_ascii c1 <? N_of_ascii c2)%N then -1 else 1
  else
    match cs with
    | [] => 0
    | _ :: cs' => if Ascii.eqb c1 NUL then 0 else strcmp cs' (tl ct)
    end.

(** ** The host's records (linux/fs.h, linux/genhd.h) *)

Record partition_meta_info : Type := {
  uuid : list ascii;
  volname : list ascii
}.

Record hd_struct : Type := {
  info : option partition_meta_info
}.

Record gendisk : Type := {
  disk_name : list ascii
}.

(** The source reads [bd_disk->disk_name] without a test: a block device
    always has its disk, while [bd_part] and its [info] are tested. *)
Record block_device : Type := {
  bd_part : option hd_struct;
  bd_disk : gendisk
}.

Record file_system_type : Type := {
  name : list ascii
}.

Record super_block : Type := {
  s_bdev : option block_device;
  s_type : option file_system_type;
  s_flags : Z
}.

(** [MS_RDONLY] of linux/fs.h. *)
Definition MS_RDONLY : Z := 1.

(** The width of [unsigned long] and [size_t]. *)
Definition ULONG_BITS : Z := 64.
Definition ULONG_MOD : Z := 2 ^ ULONG_BITS.
Definition SSIZE_MAX : Z := 2 ^ (ULONG_BITS - 1) - 1.

(** Conversion of a [size_t] to [ssize_t]. *)
Definition to_ssize (n : Z) : Z :=
  let m := n mod ULONG_MOD in
  if m <=? SSIZE_MAX then m else m - ULONG_MOD.

(** [PAGE_SIZE] of asm/page.h, the size of the buffer sysfs hands to a
    show callback. *)
Definition PAGE_SIZE : Z := 4096.

(** ** The scanner: find_ext4_superblock_by_dev *)

(** Modelled from the spec: [for_each_super] is not declared in the source;
    it iterates every mount record currently known to the host, in the
    host's order.  The host's collection is the list [supers], walked from
    its head; [idx] is the position of the head in the whole collection. *)
Fixpoint for_each_super (devname : list ascii) (supers : list super_block)
    (idx : nat) : option nat :=
  match supers with
  | [] => None
  | sb :: rest =>
      match s_bdev sb with
      | None => for_each_super devname rest (S idx)
      | Some bdev =>
          match s_type sb with
          | Some t =>
              if strcmp (name t) (chars "ext4") =? 0 then
                match bd_part bdev with
                | Some part =>
                    match info part with
                    | Some _ =>
                        if strcmp (disk_name (bd_disk bdev)) devname =? 0
                        then Some idx
                        else for_each_super devname rest (S idx)
                    | None => for_each_super devname rest (S idx)
                    end
                | None => for_each_super devname rest (S idx)
                end
              else for_each_super devname rest (S idx)
          | None => for_each_super devname rest (S idx)
          end
      end
  end.

(** [find_ext4_superblock_by_dev]: the pointer to the first record the loop
    body returns on, or [None] for NULL. *)
Definition find_ext4_superblock_by_dev (devname : list ascii)
    (supers : list super_block) : option nat :=
  for_each_super devname supers 0%nat.

(** *** The data model of the specification, read off a record *)

(** [filesystem_kind]: the name of the record's filesystem type. *)
Definition filesystem_kind (sb : super_block) : option (list ascii) :=
  match s_type sb with
  | Some t => Some (cstr (name t))
  | None => None
  end.

(** [backing_device_name]: the disk name of the record's block device. *)
Definition backing_device_name (sb : super_block) : option (list ascii) :=
  match s_bdev sb with
  | Some bdev => Some (cstr (disk_name (bd_disk bdev)))
  | None => None
  end.

(** [is_read_only]: the [MS_RDONLY] bit of the flags. *)
Definition is_read_only (sb : super_block) : bool :=
  negb (Z.land (s_flags sb) MS_RDONLY =? 0).

(** The record's block device carries partition metadata. *)
Definition has_partition_info (sb : super_block) : bool :=
  match s_bdev sb with
  | Some bdev =>
      match bd_part bdev with
      | Some part => match info part with Some _ => true | None => false end
      | None => false
      end
  | None => false
  end.

(** The match predicate of the scanner: kind "ext4", a backing device with
    partition metadata, and a disk name equal to the query. *)
Definition sb_matches (devname : list ascii) (sb : super_block) : bool :=
  bool_decide (filesystem_kind sb = Some (chars "ext4"))
  && has_partition_info sb
  && bool_decide (backing_device_name sb = Some (cstr devname)).

(** ** The module's state and its effects *)

Inductive log_level : Type := KERN_WARNING | KERN_INFO.

(** The state the three functions act on: the module's static buffer
    [clear_device], the host's super blocks in iteration order, and the
    kernel log, oldest line first. *)
Record state : Type := {
  clear_device : list ascii;
  super_blocks : list super_block;
  klog : list (log_level * list ascii)
}.

Definition set_clear_device (cd : list ascii) (s : state) : state :=
  {| clear_device := cd; super_blocks := super_blocks s; klog := klog s |}.

Definition set_super_blocks (sbs : list super_block) (s : state) : state :=
  {| clear_device := clear_device s; super_blocks := sbs; klog := klog s |}.

Definition add_klog (l : log_level * list ascii) (s : state) : state :=
  {| clear_device := clear_device s;
     super_blocks := super_blocks s;
     klog := klog s ++ [l] |}.

Definition set_s_flags (v : Z) (r : super_block) : super_block :=
  {| s_bdev := s_bdev r; s_type := s_type r; s_flags := v |}.

(** [sizeof(clear_device)]. *)
Definition sizeof_clear_device : Z := 64.

(** [static char clear_device[64]], initialised to the empty string: the
    buffer as the module is loaded. *)
Definition clear_device_init : list ascii :=
  replicate (Z.to_nat sizeof_clear_device) NUL.

(** Computations over the state; [None] is an access outside the bounds of
    [clear_device] or through a pointer to no record. *)
Definition M (A : Type) : Type := state -> option (A * state).

Definition ret {A : Type} (a : A) : M A := fun s => Some (a, s).

Definition bind {A B : Type} (m : M A) (k : A -> M B) : M B :=
  fun s => match m s with
           | Some (a, s') => k a s'
           | None => None
           end.

Declare Scope M_scope.
Delimit Scope M_scope with M.
Notation "x <- m ; k" := (bind m (fun x => k))
  (at level 20, m at level 100, k at level 200) : M_scope.
Notation "m ;; k" := (bind m (fun _ => k))
  (at level 100, k at level 200, right associativity) : M_scope.
#[local] Open Scope M_scope.

(** [clear_device[i]] as an rvalue. *)
Definition load_clear_device (i : nat) : M ascii :=
  fun s => match clear_device s !! i with
           | Some c => Some (c, s)
           | None => None
           end.

(** [clear_device[i] = c]. *)
Definition store_clear_device (i : nat) (c : ascii) : M unit :=
  fun s =>
    if decide (i < length (clear_device s))%nat then
      Some (tt, set_clear_device (<[i:=c]> (clear_device s)) s)
    else None.

(** [clear_device] as a [const char *] argument: the array itself. *)
Definition addr_clear_device : M (list ascii) :=
  fun s => Some (clear_device s, s).

(** [sb->s_flags] as an rvalue. *)
Definition load_s_flags (sb : nat) : M Z :=
  fun s => match super_blocks s !! sb with
           | Some r => Some (s_flags r, s)
           | None => None
           end.

(** [sb->s_flags = v]. *)
Definition store_s_flags (sb : nat) (v : Z) : M unit :=
  fun s => match super_blocks s !! sb with
           | Some r =>
               Some (tt, set_super_blocks
                           (<[sb := set_s_flags v r]> (super_blocks s)) s)
           | None => None
           end.

(** The host's collection of super blocks, as [for_each_super] walks it. *)
Definition host_supers : M (list super_block) :=
  fun s => Some (super_blocks s, s).

(** [printk] of one formatted line, recorded without its final newline. *)
Definition printk (lvl : log_level) (line : list ascii) : M unit :=
  fun s => Some (tt, add_klog (lvl, line) s).

Definition pr_info (line : list ascii) : M unit := printk KERN_INFO line.
Definition pr_warn (line : list ascii) : M unit := printk KERN_WARNING line.

(** A format with one [%s]: the text before, the C string, the text after. *)
Definition fmt_s (before : string) (arg : list ascii) (after : string)
  : list ascii :=
  chars before ++ cstr arg ++ chars after.

(** ** The control surface: clear_device_store and clear_device_show *)

(** [strncpy(clear_device + tmp, src, count)] of lib/string.c: while
    [count] is not zero, copy the byte at [src] to [tmp], advance [src]
    unless that byte was NUL, advance [tmp] and decrement [count]. *)
Fixpoint strncpy (tmp : nat) (src : list ascii) (count : nat) : M unit :=
  match count with
  | O => ret tt
  | S count' =>
      let c := deref src in
      store_clear_device tmp c ;;
      strncpy (S tmp) (if Ascii.eqb c NUL then src else tl src) count'
  end.

(** The loop of lines 86-89: while [len > 0] and [clear_device[len - 1]] is
    a newline or a carriage return, overwrite it with NUL and decrement
    [len].  The result is the final [len]. *)
Fixpoint trim_loop (len : nat) : M nat :=
  match len with
  | O => ret O
  | S l =>
      c <- load_clear_device l ;
      if Ascii.eqb c LF || Ascii.eqb c CR then
        store_clear_device l NUL ;;
        trim_loop l
      else ret len
  end.

(** The two outcomes of the mutator, which the source reports by its log
    line. *)
Inductive Outcome : Type := Cleared | AlreadyWritable.

(** The mutator, lines 101-115 of [clear_device_store]: test [MS_RDONLY] in
    [sb->s_flags] and clear it when set.  [~MS_RDONLY] is an [int] converted
    to [unsigned long] for the [&=]. *)
Definition clear_read_only (sb : nat) : M Outcome :=
  flags <- load_s_flags sb ;
  if negb (Z.land flags MS_RDONLY =? 0) then
    dev <- addr_clear_device ;
    pr_info (fmt_s "clear_sb_ro: Found ext4 sb on " dev
                   ", currently MS_RDONLY. Clearing...") ;;
    flags' <- load_s_flags sb ;
    store_s_flags sb (Z.land flags' (Z.lnot MS_RDONLY mod ULONG_MOD)) ;;
    pr_info (chars
      "clear_sb_ro: Completed. Now try remounting read-write in user space.") ;;
    ret Cleared
  else
    dev <- addr_clear_device ;
    pr_info (fmt_s "clear_sb_ro: " dev " superblock not marked read-only.") ;;
    ret AlreadyWritable.

(** The length [len] the write computes: [min(count, sizeof - 1)]. *)
Definition store_len (count : Z) : nat :=
  Z.to_nat (Z.min count (sizeof_clear_device - 1)).

(** [clear_device_store(kobj, attr, buf, count)]: the result is the
    [ssize_t] the callback returns. *)
Definition clear_device_store (buf : list ascii) (count : Z) : M Z :=
  let len := store_len count in
  strncpy 0 buf len ;;
  store_clear_device len NUL ;;
  trim_loop len ;;
  dev <- addr_clear_device ;
  pr_info (fmt_s "clear_sb_ro: requested device=" dev EmptyString) ;;
  dev <- addr_clear_device ;
  supers <- host_supers ;
  match find_ext4_superblock_by_dev dev supers with
  | None =>
      dev <- addr_clear_device ;
      pr_warn (fmt_s "clear_sb_ro: No ext4 sb found for device " dev
                     EmptyString) ;;
      ret (to_ssize count)
  | Some sb =>
      clear_read_only sb ;;
      ret (to_ssize count)
  end.

(** [scnprintf(buf, size, fmt, arg)] for the format of one [%s] and a
    newline: the characters written before the
    terminator, at most [size - 1] of them, and their number. *)
Definition scnprintf_s_nl (size : Z) (arg : list ascii) : list ascii * Z :=
  if size <=? 0 then ([], 0)
  else
    let out := take (Z.to_nat (size - 1)) (cstr arg ++ [LF]) in
    (out, Z.of_nat (length out)).

(** [clear_device_show(kobj, attr, buf)]: the characters written to the
    page [buf] and the [ssize_t] returned. *)
Definition clear_device_show : M (list ascii * Z) :=
  dev <- addr_clear_device ;
  ret (scnprintf_s_nl PAGE_SIZE dev).

(** ** The control surface as its user sees it *)

(** The name a write leaves in [clear_device], read as a C string. *)
Definition RequestedDeviceName (s : state) : list ascii :=
  cstr (clear_device s).

(** A read of the attribute: the first [n] bytes of the page, where [n] is
    what the show callback returned. *)
Definition attribute_read (s : state) : option (list ascii) :=
  match clear_device_show s with
  | Some ((page, n), _) => Some (take (Z.to_nat n) page)
  | None => None
  end.

(** ** Pure images of the two loops *)

(** The [n] bytes [strncpy] writes: the bytes of [src] up to its first NUL,
    then NUL up to [n]. *)
Fixpoint strncpy_image (src : list ascii) (n : nat) : list ascii :=
  match n with
  | O => []
  | S n' =>
      let c := deref src in
      c :: strncpy_image (if Ascii.eqb c NUL then src else tl src) n'
  end.

Definition is_eol (c : ascii) : bool := Ascii.eqb c LF || Ascii.eqb c CR.

(** [l] without its trailing newlines and carriage returns. *)
Fixpoint trim (l : list ascii) : list ascii :=
  match l with
  | [] => []
  | c :: l' =>
      match trim l' with
      | [] => if is_eol c then [] else [c]
      | t => c :: t
      end
  end.

(** Truncation to the storage bound: the first [len] bytes of [buf]. *)
Definition truncate (buf : list ascii) (count : Z) : list ascii :=
  take (store_len count) buf.

(** The array a write leaves in [clear_device], from the array [cd] it
    finds there: the trimmed copy, NUL over the trimmed bytes and at [len],
    and the old bytes after [len]. *)
Definition stored_buffer (buf : list ascii) (count : Z) (cd : list ascii)
  : list ascii :=
  let name := trim (strncpy_image buf (store_len count)) in
  name ++ replicate (store_len count - length name) NUL ++
  NUL :: drop (S (store_len count)) cd.

(** The stored name as the specification words it: trailing newlines and
    carriage returns trimmed from the whole input first, the result then
    truncated to the storage bound. *)
Definition trim_then_truncate (buf : list ascii) : list ascii :=
  take (Z.to_nat (sizeof_clear_device - 1)) (trim buf).

(** The log lines of a write. *)
Definition line_requested (cd : list ascii) : log_level * list ascii :=
  (KERN_INFO, fmt_s "clear_sb_ro: requested device=" cd EmptyString).

Definition line_not_found (cd : list ascii) : log_level * list ascii :=
  (KERN_WARNING,
   fmt_s "clear_sb_ro: No ext4 sb found for device " cd EmptyString).

Definition line_clearing (cd : list ascii) : log_level * list ascii :=
  (KERN_INFO,
   fmt_s "clear_sb_ro: Found ext4 sb on " cd
         ", currently MS_RDONLY. Clearing...").

Definition line_completed : log_level * list ascii :=
  (KERN_INFO,
   chars
     "clear_sb_ro: Completed. Now try remounting read-write in user space.").

Definition line_not_marked (cd : list ascii) : log_level * list ascii :=
  (KERN_INFO, fmt_s "clear_sb_ro: " cd " superblock not marked read-only.").

(** The state after lines 79-91: the name stored and logged. *)
Definition after_copy (buf : list ascii) (count : Z) (s : state) : state :=
  add_klog (line_requested (stored_buffer buf count (clear_device s)))
    (set_clear_device (stored_buffer buf count (clear_device s)) s).

(** [flags & ~MS_RDONLY] on [unsigned long]. *)
Definition clear_rdonly_bit (flags : Z) : Z :=
  Z.land flags (Z.lnot MS_RDONLY mod ULONG_MOD).

(** ** The buffer invariant *)

(** [clear_device] has its 64 bytes and holds a terminator among them, so
    that reading it as a C string stays inside the array. *)
Definition buffer_ok (s : state) : Prop :=
  length (clear_device s) = 64%nat /\ NUL ∈ clear_device s.

(** ** Module load and unload: clear_sb_ro_init and clear_sb_ro_exit *)

(** [ENOMEM] of errno-base.h. *)
Definition ENOMEM : Z := 12.

(** [clear_device_attribute], built by [__ATTR(clear_device, 0664,
    clear_device_show, clear_device_store)]; the mode is the octal 0664. *)
Record kobj_attribute : Type := {
  attr_name : list ascii;
  attr_mode : Z;
  attr_show : M (list ascii * Z);
  attr_store : list ascii -> Z -> M Z
}.

Definition clear_device_attribute : kobj_attribute :=
  {| attr_name := chars "clear_device";
     attr_mode := 6 * 64 + 6 * 8 + 4;
     attr_show := clear_device_show;
     attr_store := clear_device_store |}.

(** [attrs] and [attr_group]: the attributes before the NULL that ends the
    array. *)
Definition attrs : list kobj_attribute := [clear_device_attribute].

Definition attr_group : list kobj_attribute := attrs.

(** The calls the module makes to the kobject and sysfs layers, with what
    the host answers; a [struct kobject *] is a number the host chooses.
    [kobject_create_and_add] is always called with parent [kernel_kobj]. *)
Inductive host_call : Type :=
  | Kobject_create_and_add (name : list ascii) (result : option nat)
  | Sysfs_create_group (kobj : nat) (grp : list kobj_attribute) (result : Z)
  | Kobject_put (kobj : nat).

(** What the host answers to the two calls of [clear_sb_ro_init] that can
    fail: the kobject or NULL, and the status of [sysfs_create_group]. *)
Record host_answers : Type := {
  created : option nat;
  group_status : Z
}.

Definition line_loaded : log_level * list ascii :=
  (KERN_INFO,
   chars
     "clear_sb_ro: Module loaded. Use /sys/kernel/kobject_test/clear_device").

Definition line_unloaded : log_level * list ascii :=
  (KERN_INFO, chars "clear_sb_ro: Module unloaded.").

(** [clear_sb_ro_init]: the [int] returned, the host calls made in order,
    and the state with the log line added. *)
Definition clear_sb_ro_init (h : host_answers) (s : state)
  : Z * list host_call * state :=
  match created h with
  | None =>
      (- ENOMEM, [Kobject_create_and_add (chars "clear_sb_ro") None], s)
  | Some kobj =>
      let ret := group_status h in
      (ret,
       [Kobject_create_and_add (chars "clear_sb_ro") (Some kobj);
        Sysfs_create_group kobj attr_group ret]
       ++ (if ret =? 0 then [] else [Kobject_put kobj]),
       add_klog line_loaded s)
  end.

(** [clear_sb_ro_exit]: one log line and no host call. *)
Definition clear_sb_ro_exit (s : state) : list host_call * state :=
  ([], add_klog line_unloaded s).

(** The references a sequence of host calls leaves on the kobject [k]:
    one for each creation that returned it, one less for each put. *)
Fixpoint kobject_refs (k : nat) (calls : list host_call) : Z :=
  match calls with
  | [] => 0
  | Kobject_create_and_add _ (Some k') :: rest =>
      (if Nat.eqb k k' then 1 else 0) + kobject_refs k rest
  | Kobject_put k' :: rest =>
      (if Nat.eqb k k' then -1 else 0) + kobject_refs k rest
  | _ :: rest => kobject_refs k rest
  end.

(** ** The match predicate as the specification words it *)

(** The record has a backing device: [s_bdev] is not NULL. *)
Definition has_backing_device (sb : super_block) : bool :=
  match s_bdev sb with
  | Some _ => true
  | None => false
  end.

(** The three conditions of the specification: kind "ext4", a valid
    backing device, and a backing-device name equal to the query.  The
    partition metadata the scanner also asks for is not among them. *)
Definition spec_matches (devname : list ascii) (sb : super_block) : bool :=
  bool_decide (filesystem_kind sb = Some (chars "ext4"))
  && has_backing_device sb
  && bool_decide (backing_device_name sb = Some (cstr devname)).

(** ** Sample records and inputs *)

Definition sample_super (kind dname : list ascii) (part : bool) (flags : Z)
  : super_block :=
  {| s_bdev :=
       Some {| bd_part :=
                 if part
                 then Some {| info := Some {| uuid := []; volname := [] |} |}
                 else None;
               bd_disk := {| disk_name := dname |} |};
     s_type := Some {| name := kind |};
     s_flags := flags |}.

(** Five mounted filesystems: [sda1] is mounted three times, once as xfs and
    twice as ext4; [sdc] has no partition metadata. *)
Definition sample_supers : list super_block :=
  [ sample_super (chars "ext4") (chars "sdb") true 1;
    sample_super (chars "xfs") (chars "sda1") true 1;
    sample_super (chars "ext4") (chars "sda1") true 1025;
    sample_super (chars "ext4") (chars "sda1") true 0;
    sample_super (chars "ext4") (chars "sdc") false 1 ].

Definition sample_state : state :=
  {| clear_device := clear_device_init;
     super_blocks := sample_supers;
     klog := [] |}.

(** Two ext4 filesystems on [sdc]: the first without partition metadata,
    the second with it. *)
Definition shadowed_supers : list super_block :=
  [ sample_super (chars "ext4") (chars "sdc") false 1;
    sample_super (chars "ext4") (chars "sdc") true 1 ].

(** An ext4 filesystem on a disk whose [disk_name] is the empty string. *)
Definition nameless_super : super_block :=
  sample_super (chars "ext4") [] true 1.

(** Sixty-five bytes: 62 letters, a newline at index 62, two more letters. *)
Definition long_input : list ascii :=
  replicate 62 "a"%char ++ [LF] ++ chars "bc".

(** ** Facts about C strings *)

#[local] Arguments Ascii.eqb : simpl never.
#[local] Arguments N_of_ascii : simpl never.

Lemma ascii_eqb_true (a b : ascii) : Ascii.eqb a b = true <-> a = b.
Proof. apply Ascii.eqb_eq. Qed.

Lemma ascii_eqb_false (a b : ascii) : Ascii.eqb a b = false <-> a <> b.
Proof. apply Ascii.eqb_neq. Qed.

Lemma cstr_cons (c : ascii) (p : list ascii) :
  cstr (c :: p) = if Ascii.eqb c NUL then [] else c :: cstr p.
Proof. reflexivity. Qed.

Lemma strcmp_nil_l (ct : list ascii) :
  strcmp [] ct =
    if negb (Ascii.eqb NUL (deref ct)) then
      if (N_of_ascii NUL <? N_of_ascii (deref ct))%N then -1 else 1
    else 0.
Proof. reflexivity. Qed.

Lemma strcmp_cons_l (c : ascii) (cs ct : list ascii) :
  strcmp (c :: cs) ct =
    if negb (Ascii.eqb c (deref ct)) then
      if (N_of_ascii c <? N_of_ascii (deref ct))%N then -1 else 1
    else if Ascii.eqb c NUL then 0 else strcmp cs (tl ct).
Proof. reflexivity. Qed.

Lemma cstr_nil_deref (p : list ascii) : cstr p = [] <-> deref p = NUL.
Proof.
  destruct p as [|c p]; [easy|]. rewrite cstr_cons. unfold deref; simpl.
  destruct (Ascii.eqb c NUL) eqn:E.
  - apply ascii_eqb_true in E. easy.
  - apply ascii_eqb_false in E. easy.
Qed.

(** [strcmp] returns 0 exactly when the two C strings have the same value. *)
Lemma strcmp_0_iff (cs ct : list ascii) :
  strcmp cs ct = 0 <-> cstr cs = cstr ct.
Proof.
  revert ct. induction cs as [|c cs IH]; intros ct.
  - rewrite strcmp_nil_l. change (cstr []) with (@nil ascii).
    destruct (Ascii.eqb NUL (deref ct)) eqn:E; simpl.
    + apply ascii_eqb_true in E. symmetry in E.
      apply cstr_nil_deref in E. rewrite E. easy.
    + apply ascii_eqb_false in E. split.
      * destruct (_ <? _)%N; discriminate.
      * intros H. symmetry in H. apply cstr_nil_deref in H. congruence.
  - rewrite strcmp_cons_l, cstr_cons.
    destruct (Ascii.eqb c (deref ct)) eqn:Ecd; simpl.
    + apply ascii_eqb_true in Ecd.
      destruct (Ascii.eqb c NUL) eqn:Ec.
      * apply ascii_eqb_true in Ec. rewrite Ec in Ecd. symmetry in Ecd.
        apply cstr_nil_deref in Ecd. rewrite Ecd. easy.
      * apply ascii_eqb_false in Ec. destruct ct as [|d ct].
        { unfold deref in Ecd; simpl in Ecd. congruence. }
        unfold deref in Ecd; simpl in Ecd. subst d. simpl tl.
        rewrite cstr_cons.
        rewrite (proj2 (ascii_eqb_false c NUL) Ec).
        rewrite IH. split; [intros ->; reflexivity | congruence].
    + apply ascii_eqb_false in Ecd. split.
      * destruct (_ <? _)%N; discriminate.
      * intros H. exfalso. apply Ecd.
        destruct (Ascii.eqb c NUL) eqn:Ec.
        -- apply ascii_eqb_true in Ec. symmetry in H.
           apply cstr_nil_deref in H. congruence.
        -- destruct ct as [|d ct]; [discriminate|].
           rewrite cstr_cons in H. destruct (Ascii.eqb d NUL);
             [discriminate|]. unfold deref; simpl. congruence.
Qed.

Example strcmp_stops_at_NUL :
  strcmp (chars "ext4" ++ [NUL] ++ chars "fs") (chars "ext4") = 0.
Proof. reflexivity. Qed.

Example strcmp_ext3_ext4 : strcmp (chars "ext3") (chars "ext4") = -1.
Proof. reflexivity. Qed.

Example strcmp_prefix : strcmp (chars "sda1") (chars "sda") = 1.
Proof. reflexivity. Qed.

Lemma strcmp_eqb_0 (cs ct : list ascii) :
  (strcmp cs ct =? 0) = bool_decide (cstr cs = cstr ct).
Proof.
  destruct (strcmp cs ct =? 0) eqn:E; symmetry.
  - apply bool_decide_eq_true, strcmp_0_iff, Z.eqb_eq, E.
  - apply bool_decide_eq_false. rewrite <- strcmp_0_iff.
    apply Z.eqb_neq, E.
Qed.

Lemma cstr_chars_ext4 : cstr (chars "ext4") = chars "ext4".
Proof. reflexivity. Qed.

(** ** Facts about the scanner *)

(** One turn of the loop: return on a matching record, go on otherwise. *)
Lemma for_each_super_cons (devname : list ascii) (sb : super_block)
    (rest : list super_block) (idx : nat) :
  for_each_super devname (sb :: rest) idx =
    if sb_matches devname sb then Some idx
    else for_each_super devname rest (S idx).
Proof.
  unfold sb_matches, filesystem_kind, backing_device_name, has_partition_info.
  cbn [for_each_super]. destruct (s_bdev sb) as [bdev|].
  2: { rewrite andb_false_r. reflexivity. }
  destruct (s_type sb) as [t|]; [|reflexivity].
  rewrite strcmp_eqb_0, cstr_chars_ext4.
  destruct (decide (cstr (name t) = chars "ext4")) as [Hk|Hk].
  - rewrite (bool_decide_eq_true_2 _ Hk).
    rewrite (bool_decide_eq_true_2 (Some _ = Some _)) by (f_equal; exact Hk).
    simpl. destruct (bd_part bdev) as [part|]; [|reflexivity].
    destruct (info part); [|reflexivity].
    rewrite strcmp_eqb_0.
    destruct (decide (cstr (disk_name (bd_disk bdev)) = cstr devname))
      as [Hn|Hn].
    + rewrite (bool_decide_eq_true_2 _ Hn).
      rewrite (bool_decide_eq_true_2 (Some _ = Some _)) by (f_equal; exact Hn).
      reflexivity.
    + rewrite (bool_decide_eq_false_2 _ Hn).
      rewrite (bool_decide_eq_false_2 (Some _ = Some _)) by congruence.
      reflexivity.
  - rewrite (bool_decide_eq_false_2 _ Hk).
    rewrite (bool_decide_eq_false_2 (Some _ = Some _)) by congruence.
    reflexivity.
Qed.

(** What the loop returns: the first position whose record matches. *)
Lemma for_each_super_Some (devname : list ascii) (supers : list super_block)
    (idx i : nat) :
  for_each_super devname supers idx = Some i ->
  exists k sb, i = (idx + k)%nat /\ supers !! k = Some sb /\
    sb_matches devname sb = true /\
    forall j sb', (j < k)%nat -> supers !! j = Some sb' ->
      sb_matches devname sb' = false.
Proof.
  revert idx. induction supers as [|sb rest IH]; intros idx H.
  - discriminate.
  - rewrite for_each_super_cons in H.
    destruct (sb_matches devname sb) eqn:Em.
    + injection H as <-. exists 0%nat, sb.
      repeat split; [lia | exact Em | intros; lia].
    + destruct (IH _ H) as (k & sb1 & -> & Hk & Hm & Hfirst).
      exists (S k), sb1. repeat split; [lia | exact Hk | exact Hm |].
      intros [|j] sb' Hj Hl; simpl in Hl.
      * congruence.
      * apply (Hfirst j); [lia | exact Hl].
Qed.

(** When the loop falls through: no record matches. *)
Lemma for_each_super_None (devname : list ascii) (supers : list super_block)
    (idx : nat) :
  for_each_super devname supers idx = None <->
  forall sb, sb ∈ supers -> sb_matches devname sb = false.
Proof.
  revert idx. induction supers as [|sb rest IH]; intros idx.
  - split; [|reflexivity]. intros _ sb Hin. inversion Hin.
  - rewrite for_each_super_cons. split.
    + intros H sb' Hin. destruct (sb_matches devname sb) eqn:Em;
        [discriminate|].
      apply elem_of_cons in Hin as [->|Hin]; [exact Em|].
      apply (proj1 (IH _) H), Hin.
    + intros H. rewrite (H sb) by apply list_elem_of_here.
      apply IH. intros sb' Hin. apply H, list_elem_of_further, Hin.
Qed.

Lemma find_Some (devname : list ascii) (supers : list super_block) (i : nat) :
  find_ext4_superblock_by_dev devname supers = Some i ->
  exists sb, supers !! i = Some sb /\ sb_matches devname sb = true /\
    forall j sb', (j < i)%nat -> supers !! j = Some sb' ->
      sb_matches devname sb' = false.
Proof.
  intros H. apply for_each_super_Some in H as (k & sb & -> & H).
  exists sb. exact H.
Qed.

Lemma find_None (devname : list ascii) (supers : list super_block) :
  find_ext4_superblock_by_dev devname supers = None <->
  forall sb, sb ∈ supers -> sb_matches devname sb = false.
Proof. apply for_each_super_None. Qed.

Lemma sb_matches_true (devname : list ascii) (sb : super_block) :
  sb_matches devname sb = true <->
  filesystem_kind sb = Some (chars "ext4") /\
  has_partition_info sb = true /\
  backing_device_name sb = Some (cstr devname).
Proof.
  unfold sb_matches. rewrite !andb_true_iff, !bool_decide_eq_true. tauto.
Qed.

Lemma cstr_app_NUL (a b : list ascii) : cstr (a ++ NUL :: b) = cstr a.
Proof.
  induction a as [|c a IH]; [reflexivity|].
  rewrite <- app_comm_cons, !cstr_cons, IH. reflexivity.
Qed.

Lemma cstr_no_NUL (a : list ascii) : Forall (fun c => c <> NUL) a -> cstr a = a.
Proof.
  induction 1 as [|c a Hc _ IH]; [reflexivity|].
  rewrite cstr_cons, IH, (proj2 (ascii_eqb_false c NUL) Hc). reflexivity.
Qed.

Lemma cstr_length (a : list ascii) : (length (cstr a) <= length a)%nat.
Proof.
  induction a as [|c a IH]; [reflexivity|].
  rewrite cstr_cons. destruct (Ascii.eqb c NUL); simpl; lia.
Qed.

(** ** Facts about the two loops *)

Lemma trim_snoc (l : list ascii) (c : ascii) :
  trim (l ++ [c]) = if is_eol c then trim l else l ++ [c].
Proof.
  induction l as [|a l IH]; simpl.
  - destruct (is_eol c); reflexivity.
  - rewrite IH. destruct (is_eol c); [reflexivity|].
    destruct l; reflexivity.
Qed.

Lemma trim_prefix (l : list ascii) : exists k, l = trim l ++ k.
Proof.
  induction l as [|a l [k IH]]; simpl.
  - exists []. reflexivity.
  - destruct (trim l) as [|b t] eqn:E.
    + destruct (is_eol a).
      * exists (a :: l). reflexivity.
      * exists k. simpl in IH. rewrite <- IH. reflexivity.
    + exists k. rewrite IH at 1. reflexivity.
Qed.

Lemma trim_length (l : list ascii) : (length (trim l) <= length l)%nat.
Proof.
  destruct (trim_prefix l) as [k H]. rewrite H at 2.
  rewrite length_app. lia.
Qed.

Lemma trim_Forall (P : ascii -> Prop) (l : list ascii) :
  Forall P l -> Forall P (trim l).
Proof.
  destruct (trim_prefix l) as [k H]. intros HP. rewrite H in HP.
  apply Forall_app in HP. tauto.
Qed.

(** [trim l] is the prefix of [l] that is left when the longest run of
    newlines and carriage returns at its end is removed. *)
Lemma trim_spec (l : list ascii) :
  exists k, l = trim l ++ k /\ Forall (fun c => is_eol c = true) k /\
    forall c, last (trim l) = Some c -> is_eol c = false.
Proof.
  induction l as [|c l IH] using rev_ind.
  - exists []. repeat split; [constructor | discriminate].
  - rewrite trim_snoc. destruct (is_eol c) eqn:Ec.
    + destruct IH as (k & Hl & Hk & Hlast). exists (k ++ [c]).
      split; [rewrite Hl at 1; symmetry; apply app_assoc|].
      split; [|exact Hlast].
      apply Forall_app. split; [exact Hk|]. repeat constructor. exact Ec.
    + exists []. split; [symmetry; apply app_nil_r|].
      split; [constructor|]. intros d Hd. rewrite last_snoc in Hd.
      congruence.
Qed.

Example trim_crlf : trim (chars "ab" ++ [LF; CR; LF]) = chars "ab".
Proof. reflexivity. Qed.

Example trim_inner_newline :
  trim (chars "a" ++ [LF] ++ chars "b") = chars "a" ++ [LF] ++ chars "b".
Proof. reflexivity. Qed.

Example trim_only_newlines : trim [LF; LF; CR] = [].
Proof. reflexivity. Qed.

Lemma strncpy_image_length (src : list ascii) (n : nat) :
  length (strncpy_image src n) = n.
Proof.
  revert src. induction n as [|n IH]; intros src; simpl; [reflexivity|].
  rewrite IH. reflexivity.
Qed.

(** On a source of at least [n] bytes with no NUL among the first [n],
    [strncpy] copies exactly those bytes. *)
Lemma strncpy_image_take (src : list ascii) (n : nat) :
  (n <= length src)%nat -> Forall (fun c => c <> NUL) (take n src) ->
  strncpy_image src n = take n src.
Proof.
  revert src. induction n as [|n IH]; intros src Hn Hz; [reflexivity|].
  destruct src as [|c src]; simpl in Hn; [lia|].
  simpl in Hz. apply Forall_cons in Hz as [Hc Hz].
  simpl. unfold deref; simpl.
  rewrite (proj2 (ascii_eqb_false c NUL) Hc). simpl.
  rewrite IH; [reflexivity | lia | exact Hz].
Qed.

(** [strncpy] writes its image over [count] bytes from [tmp] on and touches
    nothing else; it stays within the array when [tmp + count] does. *)
Lemma strncpy_run (tmp : nat) (src : list ascii) (count : nat) (s : state) :
  (tmp + count <= length (clear_device s))%nat ->
  strncpy tmp src count s =
    Some (tt, set_clear_device
                (take tmp (clear_device s) ++ strncpy_image src count ++
                 drop (tmp + count) (clear_device s)) s).
Proof.
  revert tmp src s. induction count as [|n IH]; intros tmp src s Hlen.
  - simpl. unfold ret. f_equal. f_equal. destruct s as [cd sbs lg].
    unfold set_clear_device; simpl. f_equal.
    rewrite Nat.add_0_r, take_drop. reflexivity.
  - cbn [strncpy strncpy_image]. unfold bind at 1.
    unfold store_clear_device.
    destruct (decide (tmp < length (clear_device s))%nat) as [Hlt|]; [|lia].
    rewrite IH by (simpl; rewrite length_insert; lia).
    f_equal. f_equal. unfold set_clear_device; simpl. f_equal.
    assert (<[tmp:=deref src]> (clear_device s) !! tmp = Some (deref src))
      as Hl by (apply list_lookup_insert_eq; exact Hlt).
    rewrite (take_S_r _ _ _ Hl), take_insert_ge by lia.
    rewrite drop_insert_lt by lia.
    rewrite <- app_assoc. simpl.
    replace (tmp + S n)%nat with (S (tmp + n)) by lia. reflexivity.
Qed.

(** The trimming loop run over a buffer whose first [length pre] bytes are
    [pre]: the trailing newlines and carriage returns of [pre] become NUL,
    and the loop ends with [len] the length of what is left. *)
Lemma trim_loop_run (pre rest : list ascii) (s : state) :
  clear_device s = pre ++ rest ->
  trim_loop (length pre) s =
    Some (length (trim pre),
          set_clear_device
            (trim pre ++
             replicate (length pre - length (trim pre)) NUL ++ rest) s).
Proof.
  revert rest s. induction pre as [|c pre IH] using rev_ind; intros rest s Hcd.
  - simpl. unfold ret. f_equal. f_equal. destruct s; simpl in *.
    unfold set_clear_device; simpl. congruence.
  - rewrite <- app_assoc in Hcd. simpl in Hcd.
    rewrite length_app, Nat.add_1_r. cbn [trim_loop]. unfold bind at 1.
    unfold load_clear_device. rewrite Hcd.
    rewrite list_lookup_middle by reflexivity.
    rewrite trim_snoc. fold (is_eol c). destruct (is_eol c) eqn:Ec.
    + unfold bind at 1. unfold store_clear_device. rewrite Hcd.
      destruct (decide _) as [_|Hge].
      2: { exfalso. apply Hge. rewrite length_app. simpl. lia. }
      replace (<[length pre:=NUL]> (pre ++ c :: rest))
        with (pre ++ NUL :: rest).
      2: { replace (length pre) with (length pre + 0)%nat at 1 by lia.
           rewrite insert_app_r. reflexivity. }
      rewrite (IH (NUL :: rest)) by reflexivity.
      f_equal. f_equal. unfold set_clear_device; simpl. f_equal. f_equal.
      pose proof (trim_length pre) as Hle.
      replace (S (length pre) - length (trim pre))%nat
        with (S (length pre - length (trim pre))) by lia.
      rewrite replicate_S_end, <- app_assoc. reflexivity.
    + unfold ret. f_equal. rewrite length_app, Nat.add_1_r. f_equal.
      destruct s; unfold set_clear_device; simpl in *. f_equal.
      rewrite Hcd, Nat.sub_diag. simpl.
      rewrite <- app_assoc. reflexivity.
Qed.

Lemma store_len_bound (count : Z) : (store_len count <= 63)%nat.
Proof. unfold store_len, sizeof_clear_device. lia. Qed.

Lemma stored_buffer_length (buf : list ascii) (count : Z) (cd : list ascii) :
  length cd = 64%nat -> length (stored_buffer buf count cd) = 64%nat.
Proof.
  intros Hcd. unfold stored_buffer.
  pose proof (store_len_bound count) as Hb.
  pose proof (trim_length (strncpy_image buf (store_len count))) as Ht.
  rewrite strncpy_image_length in Ht.
  rewrite !length_app, length_replicate. simpl.
  rewrite length_drop, Hcd. lia.
Qed.

(** The stored array holds the trimmed copy as its C string. *)
Lemma stored_buffer_cstr (buf : list ascii) (count : Z) (cd : list ascii) :
  cstr (stored_buffer buf count cd) =
    cstr (trim (strncpy_image buf (store_len count))).
Proof.
  unfold stored_buffer.
  destruct (store_len count - _)%nat as [|k]; simpl.
  - apply cstr_app_NUL.
  - apply cstr_app_NUL.
Qed.

(** Lines 79-89: the copy, the terminator and the trimming loop never leave
    the 64 bytes of [clear_device] and leave [stored_buffer] there. *)
Lemma store_copy_run (buf : list ascii) (count : Z) (s : state) :
  length (clear_device s) = 64%nat ->
  (strncpy 0 buf (store_len count) ;;
   store_clear_device (store_len count) NUL ;;
   trim_loop (store_len count)) s =
  Some (length (trim (strncpy_image buf (store_len count))),
        set_clear_device (stored_buffer buf count (clear_device s)) s).
Proof.
  intros Hcd. pose proof (store_len_bound count) as Hb.
  unfold bind at 1. rewrite strncpy_run by (rewrite Hcd; lia).
  simpl take. simpl app. simpl Nat.add.
  unfold bind at 1. unfold store_clear_device.
  cbn [clear_device set_clear_device].
  destruct (decide _) as [_|Hge].
  2: { exfalso. apply Hge.
       rewrite length_app, strncpy_image_length, length_drop, Hcd. lia. }
  set (img := strncpy_image buf (store_len count)).
  assert (length img = store_len count) as Himg
    by apply strncpy_image_length.
  assert (<[store_len count:=NUL]>
            (img ++ drop (store_len count) (clear_device s))
          = img ++ NUL :: drop (S (store_len count)) (clear_device s))
    as Hins.
  { rewrite <- Himg at 1.
    replace (length img) with (length img + 0)%nat at 1 by lia.
    rewrite insert_app_r. f_equal.
    destruct (drop (store_len count) (clear_device s)) as [|d r] eqn:Ed.
    - exfalso. apply (f_equal length) in Ed.
      rewrite length_drop, Hcd in Ed. simpl in Ed. lia.
    - simpl. f_equal.
      replace (S (store_len count)) with (store_len count + 1)%nat by lia.
      rewrite <- drop_drop, Ed. reflexivity. }
  rewrite Hins. rewrite <- Himg at 1.
  erewrite trim_loop_run by reflexivity.
  f_equal. f_equal. unfold set_clear_device, stored_buffer; simpl.
  fold img. rewrite Himg. reflexivity.
Qed.

(** ** Facts about the mutator *)

Lemma is_read_only_clear_rdonly_bit (flags : Z) (r : super_block) :
  is_read_only (set_s_flags (clear_rdonly_bit flags) r) = false.
Proof.
  unfold is_read_only, set_s_flags, clear_rdonly_bit; simpl.
  rewrite <- Z.land_assoc.
  change (Z.land (Z.lnot MS_RDONLY mod ULONG_MOD) MS_RDONLY) with 0.
  rewrite Z.land_0_r. reflexivity.
Qed.

(** Clearing the bit keeps every other bit of the [unsigned long]. *)
Lemma clear_rdonly_bit_other (flags n : Z) :
  0 < n < ULONG_BITS ->
  Z.testbit (clear_rdonly_bit flags) n = Z.testbit flags n.
Proof.
  intros Hn. unfold clear_rdonly_bit. rewrite Z.land_spec.
  change (Z.lnot MS_RDONLY mod ULONG_MOD) with (Z.ones 64 - 1).
  replace (Z.testbit (Z.ones 64 - 1) n) with true; [apply andb_true_r|].
  unfold ULONG_BITS in Hn.
  symmetry.
  change (Z.ones 64 - 1) with (Z.lor (Z.shiftl (Z.ones 63) 1) 0).
  rewrite Z.lor_0_r, Z.shiftl_spec by lia.
  apply Z.ones_spec_low. lia.
Qed.

Lemma super_blocks_add_klog (l : log_level * list ascii) (s : state) :
  super_blocks (add_klog l s) = super_blocks s.
Proof. reflexivity. Qed.

Lemma clear_read_only_set (sb : nat) (s : state) (r : super_block) :
  super_blocks s !! sb = Some r -> is_read_only r = true ->
  clear_read_only sb s =
    Some (Cleared,
          add_klog line_completed
            (set_super_blocks
               (<[sb := set_s_flags (clear_rdonly_bit (s_flags r)) r]>
                  (super_blocks s))
               (add_klog (line_clearing (clear_device s)) s))).
Proof.
  intros Hr Hro. unfold clear_read_only, bind, load_s_flags.
  rewrite Hr. fold (is_read_only r). rewrite Hro.
  unfold addr_clear_device, pr_info, printk, store_s_flags.
  repeat first [rewrite super_blocks_add_klog | rewrite Hr
                | progress cbv beta iota].
  reflexivity.
Qed.

Lemma clear_read_only_unset (sb : nat) (s : state) (r : super_block) :
  super_blocks s !! sb = Some r -> is_read_only r = false ->
  clear_read_only sb s =
    Some (AlreadyWritable, add_klog (line_not_marked (clear_device s)) s).
Proof.
  intros Hr Hro. unfold clear_read_only, bind, load_s_flags.
  rewrite Hr. fold (is_read_only r). rewrite Hro. reflexivity.
Qed.

(** ** Facts about the write *)

Lemma clear_device_store_eq (buf : list ascii) (count : Z) (s : state) :
  length (clear_device s) = 64%nat ->
  clear_device_store buf count s =
    match find_ext4_superblock_by_dev
            (stored_buffer buf count (clear_device s)) (super_blocks s) with
    | None =>
        Some (to_ssize count,
              add_klog
                (line_not_found (stored_buffer buf count (clear_device s)))
                (after_copy buf count s))
    | Some sb =>
        match clear_read_only sb (after_copy buf count s) with
        | Some (_, s') => Some (to_ssize count, s')
        | None => None
        end
    end.
Proof.
  intros Hcd. pose proof (store_copy_run buf count s Hcd) as Hrun.
  unfold clear_device_store.
  unfold bind at 1 2 3. unfold bind at 1 2 in Hrun.
  destruct (strncpy 0 buf (store_len count) s) as [[[] s1]|];
    [|discriminate].
  destruct (store_clear_device (store_len count) NUL s1) as [[[] s2]|];
    [|discriminate].
  rewrite Hrun. unfold bind, addr_clear_device, pr_info, printk, host_supers.
  cbn [clear_device super_blocks set_clear_device add_klog].
  fold (line_requested (stored_buffer buf count (clear_device s))).
  fold (after_copy buf count s).
  destruct (find_ext4_superblock_by_dev _ _); reflexivity.
Qed.

(** The mutator succeeds through a pointer to a record; it leaves
    [clear_device] alone and changes the super blocks only when it clears
    the flag. *)
Lemma clear_read_only_total (sb : nat) (s : state) (r : super_block) :
  super_blocks s !! sb = Some r ->
  exists o s', clear_read_only sb s = Some (o, s') /\
    clear_device s' = clear_device s /\
    super_blocks s' =
      if is_read_only r
      then <[sb := set_s_flags (clear_rdonly_bit (s_flags r)) r]>
             (super_blocks s)
      else super_blocks s.
Proof.
  intros Hr. destruct (is_read_only r) eqn:Hro.
  - eexists _, _. split; [apply (clear_read_only_set _ _ _ Hr Hro)|].
    split; reflexivity.
  - eexists _, _. split; [apply (clear_read_only_unset _ _ _ Hr Hro)|].
    split; reflexivity.
Qed.

(** A write never faults on a 64-byte [clear_device]; it returns [count]
    converted to [ssize_t] and leaves [stored_buffer] in [clear_device]. *)
Lemma clear_device_store_total (buf : list ascii) (count : Z) (s : state) :
  length (clear_device s) = 64%nat ->
  exists s', clear_device_store buf count s = Some (to_ssize count, s') /\
    clear_device s' = stored_buffer buf count (clear_device s).
Proof.
  intros Hcd. rewrite (clear_device_store_eq _ _ _ Hcd).
  destruct (find_ext4_superblock_by_dev _ _) as [sb|] eqn:Ef.
  - apply find_Some in Ef as (r & Hr & _).
    destruct (clear_read_only_total sb (after_copy buf count s) r Hr)
      as (o & s' & -> & Hcd' & _).
    exists s'. split; [reflexivity | exact Hcd'].
  - eexists. split; reflexivity.
Qed.

Lemma to_ssize_small (count : Z) :
  0 <= count <= SSIZE_MAX -> to_ssize count = count.
Proof.
  intros H. unfold to_ssize.
  assert (SSIZE_MAX < ULONG_MOD) by reflexivity.
  rewrite Z.mod_small by lia.
  destruct (Z.leb_spec count SSIZE_MAX); [reflexivity | lia].
Qed.

(** *** Trimming and NUL *)

Lemma is_eol_NUL : is_eol NUL = false.
Proof. reflexivity. Qed.

Lemma trim_cons_keep (c : ascii) (l : list ascii) :
  is_eol c = false -> trim (c :: l) = c :: trim l.
Proof. intros Hc. simpl. rewrite Hc. destruct (trim l); reflexivity. Qed.

Lemma trim_cons_nonempty (c : ascii) (l : list ascii) :
  trim l <> [] -> trim (c :: l) = c :: trim l.
Proof. intros Hl. simpl. destruct (trim l); [congruence | reflexivity]. Qed.

Lemma trim_nil_NUL (l : list ascii) : NUL ∈ l -> trim l <> [].
Proof.
  induction l as [|c l IH]; intros Hin; [inversion Hin|].
  apply elem_of_cons in Hin as [<-|Hin].
  - rewrite trim_cons_keep by apply is_eol_NUL. discriminate.
  - rewrite trim_cons_nonempty by (apply IH, Hin). discriminate.
Qed.

(** Trimming does not reach a NUL: the C string is the same. *)
Lemma cstr_trim_NUL (l : list ascii) : NUL ∈ l -> cstr (trim l) = cstr l.
Proof.
  induction l as [|c l IH]; intros Hin; [inversion Hin|].
  apply elem_of_cons in Hin as [<-|Hin].
  - rewrite trim_cons_keep by apply is_eol_NUL. reflexivity.
  - rewrite trim_cons_nonempty by (apply trim_nil_NUL, Hin).
    rewrite !cstr_cons, IH by exact Hin. reflexivity.
Qed.

Lemma cstr_strncpy_image (src : list ascii) (n : nat) :
  cstr (strncpy_image src n) = cstr (take n src).
Proof.
  revert src. induction n as [|n IH]; intros src; [reflexivity|].
  cbn [strncpy_image]. rewrite cstr_cons.
  destruct src as [|c src]; [reflexivity|].
  unfold deref; cbn [hd tl take]. rewrite cstr_cons.
  destruct (Ascii.eqb c NUL); [reflexivity|]. rewrite IH. reflexivity.
Qed.

Lemma strncpy_image_NUL (src : list ascii) (n : nat) :
  NUL ∈ take n src -> NUL ∈ strncpy_image src n.
Proof.
  revert src. induction n as [|n IH]; intros src Hin.
  - inversion Hin.
  - destruct src as [|c src]; [inversion Hin|].
    cbn [take] in Hin. cbn [strncpy_image]. unfold deref; cbn [hd tl].
    apply elem_of_cons in Hin as [<-|Hin].
    + apply list_elem_of_here.
    + apply list_elem_of_further.
      destruct (Ascii.eqb c NUL) eqn:Ec.
      * apply ascii_eqb_true in Ec. subst c.
        destruct n; [inversion Hin|]. cbn [strncpy_image].
        apply list_elem_of_here.
      * apply IH, Hin.
Qed.

(** Copy, then trim: as a C string, the trimmed [strncpy] image is the
    trimmed prefix of the source. *)
Lemma cstr_trim_strncpy_image (src : list ascii) (n : nat) :
  (n <= length src)%nat ->
  cstr (trim (strncpy_image src n)) = cstr (trim (take n src)).
Proof.
  intros Hn.
  destruct (decide (NUL ∈ take n src)) as [Hin|Hnin].
  - rewrite !cstr_trim_NUL by auto using strncpy_image_NUL.
    apply cstr_strncpy_image.
  - rewrite strncpy_image_take; [reflexivity | exact Hn |].
    apply Forall_forall. intros c Hc ->. apply Hnin, Hc.
Qed.

(** ** The scanner: C3, C8, C9, C10 *)

(** C3.  A mount record whose filesystem kind is not "ext4" is never the
    record the scanner returns, whatever device name is queried and whatever
    the record's own backing-device name is. *)
Theorem non_ext4_never_matched (supers : list super_block)
    (devname : list ascii) (i : nat) (r : super_block) :
  supers !! i = Some r ->
  filesystem_kind r <> Some (chars "ext4") ->
  find_ext4_superblock_by_dev devname supers <> Some i.
Proof.
  intros Hr Hkind Hfind.
  apply find_Some in Hfind as (r' & Hr' & Hm & _).
  assert (r' = r) as -> by congruence.
  apply sb_matches_true in Hm as (Hk & _). contradiction.
Qed.

Lemma non_ext4_never_matched_witness :
  sample_supers !! 1%nat =
    Some (sample_super (chars "xfs") (chars "sda1") true 1) /\
  backing_device_name (sample_super (chars "xfs") (chars "sda1") true 1) =
    Some (chars "sda1") /\
  find_ext4_superblock_by_dev (chars "sda1") sample_supers <> Some 1%nat.
Proof.
  split; [reflexivity|]. split; [reflexivity|].
  apply (non_ext4_never_matched sample_supers (chars "sda1") 1
           (sample_super (chars "xfs") (chars "sda1") true 1)).
  - reflexivity.
  - discriminate.
Defined.

(** C8, as the code has it.  The scanner has no case for the empty device
    name: it returns not-found for it provided no ext4 record with partition
    metadata sits on a disk whose name is itself empty. *)
Theorem empty_name_not_found (supers : list super_block) :
  (forall r, r ∈ supers ->
     filesystem_kind r = Some (chars "ext4") ->
     has_partition_info r = true ->
     backing_device_name r <> Some []) ->
  find_ext4_superblock_by_dev [] supers = None.
Proof.
  intros Hnames. apply find_None. intros r Hin.
  destruct (sb_matches [] r) eqn:Hm; [|reflexivity].
  apply sb_matches_true in Hm as (Hk & Hp & Hn).
  exfalso. exact (Hnames r Hin Hk Hp Hn).
Qed.

Lemma empty_name_not_found_witness :
  find_ext4_superblock_by_dev [] sample_supers = None.
Proof.
  apply (empty_name_not_found sample_supers).
  intros r Hin _ _. unfold sample_supers in Hin.
  repeat (apply elem_of_cons in Hin as [->|Hin]; [discriminate|]).
  inversion Hin.
Defined.

(** C8, as the specification has it, fails: a mount set holding an ext4 record on a
    disk with an empty name answers the empty query with that record. *)
Lemma empty_name_counterexample :
  ~ (forall supers : list super_block,
       find_ext4_superblock_by_dev [] supers = None).
Proof. intros H. specialize (H [nameless_super]). discriminate H. Qed.

(** C9, as the code has it.  The match predicate of the scanner asks for
    partition metadata besides kind "ext4", a backing device and an equal
    name.  When some record satisfies that predicate, the scanner does not
    return not-found: it returns the position of a matching record, and no
    record before that position matches. *)
Theorem first_match_returned (supers : list super_block)
    (devname : list ascii) :
  (exists i r, supers !! i = Some r /\ sb_matches devname r = true) ->
  exists i r, find_ext4_superblock_by_dev devname supers = Some i /\
    supers !! i = Some r /\ sb_matches devname r = true /\
    forall j r', (j < i)%nat -> supers !! j = Some r' ->
      sb_matches devname r' = false.
Proof.
  intros (k & rk & Hk & Hmk).
  destruct (find_ext4_superblock_by_dev devname supers) as [i|] eqn:Ef.
  - apply find_Some in Ef as (r & Hr & Hm & Hfirst).
    exists i, r. auto.
  - exfalso. rewrite find_None in Ef.
    rewrite (Ef rk) in Hmk; [discriminate|].
    apply list_elem_of_lookup. exists k. exact Hk.
Qed.

Lemma first_match_returned_witness :
  (sb_matches (chars "sda1")
     (sample_super (chars "ext4") (chars "sda1") true 1025) = true /\
   sb_matches (chars "sda1")
     (sample_super (chars "ext4") (chars "sda1") true 0) = true) /\
  exists i r,
    find_ext4_superblock_by_dev (chars "sda1") sample_supers = Some i /\
    sample_supers !! i = Some r /\ sb_matches (chars "sda1") r = true /\
    forall j r', (j < i)%nat -> sample_supers !! j = Some r' ->
      sb_matches (chars "sda1") r' = false.
Proof.
  split; [split; reflexivity|].
  apply (first_match_returned sample_supers (chars "sda1")).
  exists 3%nat, (sample_super (chars "ext4") (chars "sda1") true 0).
  split; reflexivity.
Defined.

(** What the scanner matches also meets the three conditions of the
    specification; the converse fails. *)
Lemma sb_matches_spec_matches (devname : list ascii) (r : super_block) :
  sb_matches devname r = true -> spec_matches devname r = true.
Proof.
  intros H. apply sb_matches_true in H as (Hk & Hp & Hn).
  unfold spec_matches, has_backing_device.
  unfold has_partition_info in Hp.
  destruct (s_bdev r); [|discriminate].
  rewrite !andb_true_iff, !bool_decide_eq_true. auto.
Qed.

(** C9, as the specification has it, fails: record 4 of [sample_supers] is
    an ext4 filesystem on a backing device named [sdc], yet the scanner
    returns not-found for [sdc], because that device has no partition
    metadata. *)
Lemma first_match_counterexample :
  ~ (forall (supers : list super_block) (devname : list ascii),
       (exists i r, supers !! i = Some r /\ spec_matches devname r = true) ->
       exists i r, find_ext4_superblock_by_dev devname supers = Some i /\
         supers !! i = Some r /\ spec_matches devname r = true /\
         forall j r', (j < i)%nat -> supers !! j = Some r' ->
           spec_matches devname r' = false).
Proof.
  intros H.
  destruct (H sample_supers (chars "sdc")) as (i & r & Hfind & _).
  - exists 4%nat, (sample_super (chars "ext4") (chars "sdc") false 1).
    split; reflexivity.
  - vm_compute in Hfind. discriminate Hfind.
Qed.

(** With the three conditions only, the record returned need not be the
    first either: the scanner passes over record 0 of [shadowed_supers]. *)
Example shadowed_first_record :
  spec_matches (chars "sdc")
    (sample_super (chars "ext4") (chars "sdc") false 1) = true /\
  find_ext4_superblock_by_dev (chars "sdc") shadowed_supers = Some 1%nat.
Proof. split; reflexivity. Qed.

(** C10.  The record the scanner returns has a block device with partition
    metadata: [s_bdev], [bd_part] and [bd_part->info] are all non-null.  An
    ext4 record on a disk of the queried name is not returned when that
    metadata is absent. *)
Theorem partition_info_required (supers : list super_block)
    (devname : list ascii) (i : nat) (r : super_block) :
  supers !! i = Some r ->
  (find_ext4_superblock_by_dev devname supers = Some i ->
   exists bdev part pmi,
     s_bdev r = Some bdev /\ bd_part bdev = Some part /\
     info part = Some pmi) /\
  (filesystem_kind r = Some (chars "ext4") ->
   backing_device_name r = Some (cstr devname) ->
   has_partition_info r = false ->
   find_ext4_superblock_by_dev devname supers <> Some i).
Proof.
  intros Hr.
  assert (find_ext4_superblock_by_dev devname supers = Some i ->
          has_partition_info r = true) as Hinfo.
  { intros Hfind. apply find_Some in Hfind as (r' & Hr' & Hm & _).
    assert (r' = r) as -> by congruence.
    apply sb_matches_true in Hm. tauto. }
  split.
  - intros Hfind. specialize (Hinfo Hfind).
    unfold has_partition_info in Hinfo.
    destruct (s_bdev r) as [bdev|]; [|discriminate].
    destruct (bd_part bdev) as [part|] eqn:Ep; [|discriminate].
    destruct (info part) as [pmi|] eqn:Ei; [|discriminate].
    exists bdev, part, pmi. auto.
  - intros _ _ Hno Hfind. rewrite (Hinfo Hfind) in Hno. discriminate.
Qed.

Lemma partition_info_required_witness :
  sample_supers !! 4%nat =
    Some (sample_super (chars "ext4") (chars "sdc") false 1) /\
  find_ext4_superblock_by_dev (chars "sdc") sample_supers <> Some 4%nat.
Proof.
  split; [reflexivity|].
  apply (partition_info_required sample_supers (chars "sdc") 4
           (sample_super (chars "ext4") (chars "sdc") false 1));
    reflexivity.
Defined.

(** ** The mutator: C1 *)

(** C1.  Through a reference returned by the scanner, the mutator reads the
    read-only flag of the record.  If the flag is set, it clears it, keeps
    the rest of the record and every other record, and returns [Cleared];
    if it is clear, it returns [AlreadyWritable] and changes no record.
    Applied twice in a row, it leaves the flag clear and its second
    application returns [AlreadyWritable] without changing any record.
    Clearing keeps the other bits of the flags word. *)
Theorem clear_read_only_idempotent (s : state) (devname : list ascii)
    (sb : nat) :
  find_ext4_superblock_by_dev devname (super_blocks s) = Some sb ->
  exists r, super_blocks s !! sb = Some r /\
    (is_read_only r = true ->
     exists s1 r1, clear_read_only sb s = Some (Cleared, s1) /\
       super_blocks s1 !! sb = Some r1 /\ is_read_only r1 = false /\
       s_bdev r1 = s_bdev r /\ s_type r1 = s_type r /\
       (forall n, 0 < n < ULONG_BITS ->
          Z.testbit (s_flags r1) n = Z.testbit (s_flags r) n) /\
       forall j, j <> sb -> super_blocks s1 !! j = super_blocks s !! j) /\
    (is_read_only r = false ->
     exists s1, clear_read_only sb s = Some (AlreadyWritable, s1) /\
       super_blocks s1 = super_blocks s) /\
    (exists o1 s1 s2 r2,
       clear_read_only sb s = Some (o1, s1) /\
       clear_read_only sb s1 = Some (AlreadyWritable, s2) /\
       super_blocks s2 = super_blocks s1 /\
       super_blocks s2 !! sb = Some r2 /\ is_read_only r2 = false).
Proof.
  intros Hfind. apply find_Some in Hfind as (r & Hr & _).
  exists r. split; [exact Hr|].
  assert (sb < length (super_blocks s))%nat as Hlt
    by (apply lookup_lt_is_Some; eauto).
  split; [|split].
  - intros Hro. eexists _, _.
    split; [apply (clear_read_only_set _ _ _ Hr Hro)|].
    cbn [super_blocks add_klog set_super_blocks].
    split; [apply list_lookup_insert_eq, Hlt|].
    split; [apply is_read_only_clear_rdonly_bit|].
    split; [reflexivity|]. split; [reflexivity|].
    split; [intros n Hn; apply clear_rdonly_bit_other, Hn|].
    intros j Hj. apply list_lookup_insert_ne. congruence.
  - intros Hro. eexists.
    split; [apply (clear_read_only_unset _ _ _ Hr Hro)|]. reflexivity.
  - destruct (is_read_only r) eqn:Hro.
    + set (r1 := set_s_flags (clear_rdonly_bit (s_flags r)) r).
      set (s1 := add_klog line_completed
                   (set_super_blocks (<[sb:=r1]> (super_blocks s))
                      (add_klog (line_clearing (clear_device s)) s))).
      assert (super_blocks s1 !! sb = Some r1) as Hr1
        by (apply list_lookup_insert_eq, Hlt).
      assert (is_read_only r1 = false) as Hro1
        by apply is_read_only_clear_rdonly_bit.
      exists Cleared, s1, (add_klog (line_not_marked (clear_device s1)) s1), r1.
      split; [apply (clear_read_only_set _ _ _ Hr Hro)|].
      split; [apply (clear_read_only_unset _ _ _ Hr1 Hro1)|].
      split; [reflexivity|]. split; [exact Hr1 | exact Hro1].
    + set (s1 := add_klog (line_not_marked (clear_device s)) s).
      exists AlreadyWritable, s1,
        (add_klog (line_not_marked (clear_device s1)) s1), r.
      split; [apply (clear_read_only_unset _ _ _ Hr Hro)|].
      split; [apply (clear_read_only_unset sb s1 r Hr Hro)|].
      split; [reflexivity|]. split; [exact Hr | exact Hro].
Qed.

Lemma clear_read_only_idempotent_witness :
  find_ext4_superblock_by_dev (chars "sda1") (super_blocks sample_state) =
    Some 2%nat /\
  exists o1 s1 s2 r2,
    clear_read_only 2 sample_state = Some (o1, s1) /\
    clear_read_only 2 s1 = Some (AlreadyWritable, s2) /\
    super_blocks s2 = super_blocks s1 /\
    super_blocks s2 !! 2%nat = Some r2 /\ is_read_only r2 = false.
Proof.
  split; [reflexivity|].
  destruct (clear_read_only_idempotent sample_state (chars "sda1") 2
              eq_refl) as (r & _ & _ & _ & Htwice).
  exact Htwice.
Defined.

(** The three outcomes of a write on the sample mount set. *)
Example store_sda1_clears :
  option_map (fun p => (fst p, map s_flags (super_blocks (snd p))))
    (clear_device_store (chars "sda1" ++ [LF]) 5 sample_state) =
  Some (5, [1; 1; 1024; 0; 1]).
Proof. vm_compute. reflexivity. Qed.

Example store_sda1_twice_already_writable :
  option_map (fun p => (fst p, map s_flags (super_blocks (snd p)),
                        last (klog (snd p))))
    (bind (clear_device_store (chars "sda1" ++ [LF]) 5)
          (fun _ => clear_device_store (chars "sda1" ++ [LF]) 5)
          sample_state) =
  Some (5, [1; 1; 1024; 0; 1],
        Some (line_not_marked (chars "sda1"))).
Proof. vm_compute. reflexivity. Qed.

Example store_sdc_not_found :
  option_map (fun p => (fst p, map s_flags (super_blocks (snd p)),
                        last (klog (snd p))))
    (clear_device_store (chars "sdc" ++ [LF]) 4 sample_state) =
  Some (4, [1; 1; 1025; 0; 1], Some (line_not_found (chars "sdc"))).
Proof. vm_compute. reflexivity. Qed.

(** ** The write: C2, C4, C5, C6, C7 *)

(** The scanner reads its argument as a C string. *)
Lemma sb_matches_cstr (d1 d2 : list ascii) (r : super_block) :
  cstr d1 = cstr d2 -> sb_matches d1 r = sb_matches d2 r.
Proof. intros H. unfold sb_matches. rewrite H. reflexivity. Qed.

Lemma find_cstr (d1 d2 : list ascii) (supers : list super_block) :
  cstr d1 = cstr d2 ->
  find_ext4_superblock_by_dev d1 supers =
  find_ext4_superblock_by_dev d2 supers.
Proof.
  intros H. unfold find_ext4_superblock_by_dev. generalize 0%nat.
  induction supers as [|r rest IH]; intros idx; [reflexivity|].
  rewrite !for_each_super_cons, (sb_matches_cstr d1 d2 r H), IH.
  reflexivity.
Qed.

Lemma stored_buffer_terminator (buf : list ascii) (count : Z)
    (cd : list ascii) :
  stored_buffer buf count cd !! store_len count = Some NUL.
Proof.
  unfold stored_buffer.
  pose proof (trim_length (strncpy_image buf (store_len count))) as Ht.
  rewrite strncpy_image_length in Ht.
  rewrite lookup_app_r by exact Ht.
  rewrite lookup_app_r by (rewrite length_replicate; lia).
  rewrite length_replicate.
  replace (store_len count - _ - _)%nat with 0%nat by lia. reflexivity.
Qed.

(** C2.  When no ext4 record of the mount set has the device name as its
    backing-device name, the scanner returns not-found for it, and a write
    that requests this name returns without changing any mount record. *)
Theorem absent_device_no_mutation (supers : list super_block)
    (devname : list ascii) :
  (forall r, r ∈ supers ->
     filesystem_kind r = Some (chars "ext4") ->
     backing_device_name r <> Some (cstr devname)) ->
  find_ext4_superblock_by_dev devname supers = None /\
  forall (s : state) (buf : list ascii) (count : Z),
    super_blocks s = supers ->
    length (clear_device s) = 64%nat ->
    exists s', clear_device_store buf count s = Some (to_ssize count, s') /\
      (RequestedDeviceName s' = cstr devname -> super_blocks s' = supers).
Proof.
  intros Habsent.
  assert (find_ext4_superblock_by_dev devname supers = None) as Hnone.
  { apply find_None. intros r Hin.
    destruct (sb_matches devname r) eqn:Hm; [|reflexivity].
    apply sb_matches_true in Hm as (Hk & _ & Hn).
    exfalso. exact (Habsent r Hin Hk Hn). }
  split; [exact Hnone|].
  intros s buf count Hs Hcd.
  destruct (clear_device_store_total buf count s Hcd) as (s' & Hrun & Hcd').
  exists s'. split; [exact Hrun|]. intros Hreq.
  unfold RequestedDeviceName in Hreq. rewrite Hcd' in Hreq.
  rewrite (clear_device_store_eq _ _ _ Hcd) in Hrun.
  rewrite (find_cstr _ devname _ Hreq), Hs, Hnone in Hrun.
  injection Hrun as <-. exact Hs.
Qed.

Lemma absent_device_no_mutation_witness :
  find_ext4_superblock_by_dev (chars "sdz9") sample_supers = None /\
  exists s',
    clear_device_store (chars "sdz9" ++ [LF]) 5 sample_state =
      Some (5, s') /\
    RequestedDeviceName s' = chars "sdz9" /\
    super_blocks s' = sample_supers.
Proof.
  assert (forall r, r ∈ sample_supers ->
            filesystem_kind r = Some (chars "ext4") ->
            backing_device_name r <> Some (cstr (chars "sdz9"))) as Habsent.
  { intros r Hin _. unfold sample_supers in Hin.
    repeat (apply elem_of_cons in Hin as [->|Hin]; [discriminate|]).
    inversion Hin. }
  destruct (absent_device_no_mutation sample_supers (chars "sdz9") Habsent)
    as [Hnone Hwrite].
  split; [exact Hnone|].
  destruct (Hwrite sample_state (chars "sdz9" ++ [LF]) 5 eq_refl eq_refl)
    as (s' & Hrun & Hsame).
  exists s'. split; [exact Hrun|].
  assert (RequestedDeviceName s' = chars "sdz9") as Hreq.
  { vm_compute in Hrun. injection Hrun as <-. reflexivity. }
  split; [exact Hreq | exact (Hsame Hreq)].
Defined.

(** C7.  On every buffer and every byte count that [ssize_t] can hold, and
    on every mount set, the write returns the byte count: when no record is
    found, when the record is already writable and when the flag is
    cleared. *)
Theorem store_returns_count (s : state) (buf : list ascii) (count : Z) :
  length (clear_device s) = 64%nat ->
  0 <= count <= SSIZE_MAX ->
  exists s', clear_device_store buf count s = Some (count, s').
Proof.
  intros Hcd Hcount.
  destruct (clear_device_store_total buf count s Hcd) as (s' & Hrun & _).
  rewrite (to_ssize_small count Hcount) in Hrun. exists s'. exact Hrun.
Qed.

Lemma store_returns_count_witness :
  length (clear_device sample_state) = 64%nat /\
  0 <= 4 <= SSIZE_MAX /\
  exists s', clear_device_store (chars "sdc" ++ [LF]) 4 sample_state =
               Some (4, s').
Proof.
  split; [reflexivity|]. split; [split; discriminate|].
  apply (store_returns_count sample_state (chars "sdc" ++ [LF]) 4).
  - reflexivity.
  - split; discriminate.
Defined.

(** What a read returns after a write, from the name the write stored. *)
Lemma attribute_read_short (s : state) :
  (length (RequestedDeviceName s) < 4095)%nat ->
  attribute_read s = Some (RequestedDeviceName s ++ [LF]).
Proof.
  intros Hlen. unfold attribute_read, clear_device_show, bind.
  unfold addr_clear_device, ret, scnprintf_s_nl.
  change (PAGE_SIZE <=? 0) with false. cbv iota.
  fold (RequestedDeviceName s).
  change (Z.to_nat (PAGE_SIZE - 1)) with 4095%nat.
  rewrite Nat2Z.id.
  assert (take 4095 (RequestedDeviceName s ++ [LF]) =
          RequestedDeviceName s ++ [LF]) as ->.
  { apply take_ge. rewrite length_app. simpl. lia. }
  f_equal. apply take_ge. lia.
Qed.

(** C4.  Whatever name was stored before, a write of the five bytes
    [sda1] and newline followed by a read returns those five bytes: the
    write stores the name without the newline, the read appends one. *)
Theorem sda1_round_trip (s : state) :
  length (clear_device s) = 64%nat ->
  exists s',
    clear_device_store (chars "sda1" ++ [LF]) 5 s = Some (5, s') /\
    RequestedDeviceName s' = chars "sda1" /\
    attribute_read s' = Some (chars "sda1" ++ [LF]).
Proof.
  intros Hcd.
  destruct (clear_device_store_total (chars "sda1" ++ [LF]) 5 s Hcd)
    as (s' & Hrun & Hcd').
  assert (RequestedDeviceName s' = chars "sda1") as Hreq.
  { unfold RequestedDeviceName. rewrite Hcd', stored_buffer_cstr.
    reflexivity. }
  exists s'. split; [exact Hrun|]. split; [exact Hreq|].
  rewrite attribute_read_short; rewrite Hreq; [reflexivity|].
  simpl. lia.
Qed.

Lemma sda1_round_trip_witness :
  length (clear_device sample_state) = 64%nat /\
  exists s',
    clear_device_store (chars "sda1" ++ [LF]) 5 sample_state =
      Some (5, s') /\
    RequestedDeviceName s' = chars "sda1" /\
    attribute_read s' = Some (chars "sda1" ++ [LF]).
Proof.
  split; [reflexivity|]. apply (sda1_round_trip sample_state). reflexivity.
Defined.

(** C6, as the code has it.  The write truncates first and trims second:
    it copies the first [min(count, 63)] bytes of [buf], then removes the
    trailing newlines and carriage returns of the copy; the stored name is
    the result read as a C string, and the result itself when the copied
    bytes hold no NUL. *)
Theorem stored_name_truncate_then_trim (s : state) (buf : list ascii)
    (count : Z) :
  length (clear_device s) = 64%nat ->
  0 <= count <= Z.of_nat (length buf) ->
  exists s', clear_device_store buf count s = Some (to_ssize count, s') /\
    RequestedDeviceName s' = cstr (trim (truncate buf count)) /\
    (Forall (fun c => c <> NUL) (truncate buf count) ->
     RequestedDeviceName s' = trim (truncate buf count)).
Proof.
  intros Hcd Hcount.
  destruct (clear_device_store_total buf count s Hcd) as (s' & Hrun & Hcd').
  assert (RequestedDeviceName s' = cstr (trim (truncate buf count))) as Hreq.
  { unfold RequestedDeviceName. rewrite Hcd', stored_buffer_cstr.
    apply cstr_trim_strncpy_image.
    unfold store_len, sizeof_clear_device. lia. }
  exists s'. split; [exact Hrun|]. split; [exact Hreq|].
  intros Hz. rewrite Hreq. apply cstr_no_NUL, trim_Forall, Hz.
Qed.

Lemma stored_name_truncate_then_trim_witness :
  (length (clear_device sample_state) = 64%nat /\
   0 <= 65 <= Z.of_nat (length long_input)) /\
  exists s', clear_device_store long_input 65 sample_state = Some (65, s') /\
    RequestedDeviceName s' = replicate 62 "a"%char.
Proof.
  split; [split; [reflexivity | split; discriminate]|].
  destruct (stored_name_truncate_then_trim sample_state long_input 65)
    as (s' & Hrun & Hreq & _).
  - reflexivity.
  - split; discriminate.
  - exists s'. split; [exact Hrun | exact Hreq].
Defined.

(** C6, as the specification has it, fails: on [long_input] the name
    trimmed first and truncated second keeps the newline at index 62, the
    stored name does not. *)
Lemma trim_then_truncate_counterexample :
  ~ (forall (s : state) (buf : list ascii),
       length (clear_device s) = 64%nat ->
       exists r s',
         clear_device_store buf (Z.of_nat (length buf)) s = Some (r, s') /\
         RequestedDeviceName s' = trim_then_truncate buf).
Proof.
  intros H.
  destruct (H sample_state long_input eq_refl) as (r & s' & Hrun & Hreq).
  vm_compute in Hrun. injection Hrun as <- <-.
  vm_compute in Hreq. discriminate Hreq.
Qed.

Lemma trim_last_kept (l : list ascii) (c : ascii) :
  is_eol c = false -> trim (l ++ [c]) = l ++ [c].
Proof. intros Hc. rewrite trim_snoc, Hc. reflexivity. Qed.

(** C5, as the code has it.  On an input of more than 63 bytes the write
    stays within the 64 bytes of [clear_device]: it copies the first 63
    bytes, writes NUL at index 63 and trims the copy.  The stored name is
    the first 63 bytes without their trailing newlines and carriage
    returns, so at most 63 characters; the array holds exactly the first 63
    bytes and a NUL when those bytes hold no NUL and do not end in a
    newline or a carriage return. *)
Theorem long_input_truncated (s : state) (buf : list ascii) (count : Z) :
  length (clear_device s) = 64%nat ->
  count = Z.of_nat (length buf) ->
  63 < count ->
  exists s', clear_device_store buf count s = Some (to_ssize count, s') /\
    length (clear_device s') = 64%nat /\
    clear_device s' !! 63%nat = Some NUL /\
    RequestedDeviceName s' = cstr (trim (take 63 buf)) /\
    (length (RequestedDeviceName s') <= 63)%nat /\
    (Forall (fun c => c <> NUL) (take 63 buf) ->
     (forall c, buf !! 62%nat = Some c -> is_eol c = false) ->
     clear_device s' = take 63 buf ++ [NUL]).
Proof.
  intros Hcd Hcount Hlong.
  assert (store_len count = 63%nat) as Hlen
    by (unfold store_len, sizeof_clear_device; lia).
  assert (63 <= length buf)%nat as Hbuf by lia.
  destruct (clear_device_store_total buf count s Hcd) as (s' & Hrun & Hcd').
  assert (RequestedDeviceName s' = cstr (trim (take 63 buf))) as Hreq.
  { unfold RequestedDeviceName. rewrite Hcd', stored_buffer_cstr, Hlen.
    apply cstr_trim_strncpy_image, Hbuf. }
  exists s'. split; [exact Hrun|].
  split; [rewrite Hcd'; apply stored_buffer_length, Hcd|].
  split; [rewrite Hcd', <- Hlen; apply stored_buffer_terminator|].
  split; [exact Hreq|]. split.
  - rewrite Hreq.
    pose proof (cstr_length (trim (take 63 buf))) as H1.
    pose proof (trim_length (take 63 buf)) as H2.
    rewrite length_take in H2. lia.
  - intros Hz Hlast. rewrite Hcd'. unfold stored_buffer. rewrite Hlen.
    rewrite (strncpy_image_take buf 63 Hbuf Hz).
    destruct (lookup_lt_is_Some_2 buf 62 ltac:(lia)) as [c Hc].
    rewrite (take_S_r buf 62 c Hc).
    rewrite (trim_last_kept _ c (Hlast c Hc)).
    rewrite length_app, length_take. simpl length.
    replace (63 - (62 `min` length buf + 1))%nat with 0%nat by lia.
    rewrite drop_ge by lia. reflexivity.
Qed.

Lemma long_input_truncated_witness :
  (length (clear_device sample_state) = 64%nat /\
   65 = Z.of_nat (length long_input) /\ 63 < 65) /\
  exists s', clear_device_store long_input 65 sample_state = Some (65, s') /\
    length (clear_device s') = 64%nat /\
    clear_device s' !! 63%nat = Some NUL /\
    RequestedDeviceName s' = replicate 62 "a"%char.
Proof.
  split; [split; [reflexivity | split; reflexivity]|].
  destruct (long_input_truncated sample_state long_input 65)
    as (s' & Hrun & Hlen & Hnul & Hreq & _).
  - reflexivity.
  - reflexivity.
  - reflexivity.
  - exists s'. repeat split; assumption.
Defined.

(** C5, as the specification has it, fails: [long_input] is longer than 63
    bytes, and the write stores neither its first 63 bytes followed by NUL
    nor a name equal to its first 63 bytes, because byte 62 is a newline. *)
Lemma long_input_counterexample :
  ~ (forall (s : state) (buf : list ascii),
       length (clear_device s) = 64%nat ->
       (63 < length buf)%nat ->
       exists r s',
         clear_device_store buf (Z.of_nat (length buf)) s = Some (r, s') /\
         (clear_device s' = take 63 buf ++ [NUL] \/
          RequestedDeviceName s' = take 63 buf)).
Proof.
  intros H.
  destruct (H sample_state long_input eq_refl) as (r & s' & Hrun & Hst).
  { vm_compute. lia. }
  vm_compute in Hrun. injection Hrun as <- <-.
  destruct Hst as [Hst|Hst]; vm_compute in Hst; discriminate Hst.
Qed.

(** ** More on the scanner *)

(** The match predicate reads the type and the block device of a record,
    never its flags. *)
Lemma sb_matches_fields (d : list ascii) (a b : super_block) :
  s_bdev a = s_bdev b -> s_type a = s_type b ->
  sb_matches d a = sb_matches d b.
Proof.
  intros Hb Ht.
  unfold sb_matches, filesystem_kind, backing_device_name,
    has_partition_info.
  rewrite Hb, Ht. reflexivity.
Qed.

Lemma for_each_super_fields (d : list ascii) (l1 l2 : list super_block)
    (idx : nat) :
  Forall2 (fun a b => s_bdev a = s_bdev b /\ s_type a = s_type b) l1 l2 ->
  for_each_super d l1 idx = for_each_super d l2 idx.
Proof.
  intros H. revert idx.
  induction H as [|a b l1 l2 [Hb Ht] _ IH]; intros idx; [reflexivity|].
  rewrite !for_each_super_cons, IH, (sb_matches_fields d a b Hb Ht).
  reflexivity.
Qed.

(** X1.  The scanner never reads [s_flags]: two mount sets whose records
    have, position by position, the same block device and the same type
    get the same answer, whatever the flags of each record are. *)
Theorem find_ignores_flags (d : list ascii) (l1 l2 : list super_block) :
  Forall2 (fun a b => s_bdev a = s_bdev b /\ s_type a = s_type b) l1 l2 ->
  find_ext4_superblock_by_dev d l1 = find_ext4_superblock_by_dev d l2.
Proof. intros H. apply for_each_super_fields, H. Qed.

Lemma find_ignores_flags_witness :
  Forall2 (fun a b => s_bdev a = s_bdev b /\ s_type a = s_type b)
    [nameless_super; nameless_super]
    [set_s_flags 0 nameless_super; set_s_flags 1024 nameless_super] /\
  find_ext4_superblock_by_dev [] [nameless_super; nameless_super] =
  find_ext4_superblock_by_dev []
    [set_s_flags 0 nameless_super; set_s_flags 1024 nameless_super].
Proof.
  assert (Forall2 (fun a b => s_bdev a = s_bdev b /\ s_type a = s_type b)
            [nameless_super; nameless_super]
            [set_s_flags 0 nameless_super; set_s_flags 1024 nameless_super])
    as H by (repeat constructor).
  split; [exact H|]. apply (find_ignores_flags [] _ _ H).
Defined.

Lemma for_each_super_shift (d : list ascii) (supers : list super_block)
    (idx : nat) :
  for_each_super d supers idx =
  option_map (fun i => (idx + i)%nat) (for_each_super d supers 0).
Proof.
  revert idx. induction supers as [|r rest IH]; intros idx; [reflexivity|].
  rewrite !for_each_super_cons. destruct (sb_matches d r).
  - simpl. f_equal. lia.
  - rewrite (IH (S idx)), (IH 1%nat).
    destruct (for_each_super d rest 0); simpl; [f_equal; lia | reflexivity].
Qed.

(** X2.  Scanning two runs of records one after the other: a match in the
    first run hides the second run; without one, the answer is the match of
    the second run, counted from the start of the whole list. *)
Theorem find_app (d : list ascii) (l1 l2 : list super_block) :
  find_ext4_superblock_by_dev d (l1 ++ l2) =
    match find_ext4_superblock_by_dev d l1 with
    | Some i => Some i
    | None =>
        option_map (fun j => (length l1 + j)%nat)
          (find_ext4_superblock_by_dev d l2)
    end.
Proof.
  unfold find_ext4_superblock_by_dev.
  rewrite <- (for_each_super_shift d l2 (length l1)).
  replace (length l1) with (0 + length l1)%nat by lia.
  generalize 0%nat.
  induction l1 as [|r l1 IH]; intros idx.
  - simpl. rewrite Nat.add_0_r. reflexivity.
  - rewrite <- app_comm_cons, !for_each_super_cons.
    destruct (sb_matches d r); [reflexivity|].
    rewrite IH. simpl length.
    replace (S idx + length l1)%nat with (idx + S (length l1))%nat by lia.
    reflexivity.
Qed.

(** The pointer the scanner returns points into the mount set. *)
Lemma find_lt (d : list ascii) (supers : list super_block) (i : nat) :
  find_ext4_superblock_by_dev d supers = Some i -> (i < length supers)%nat.
Proof.
  intros H. apply find_Some in H as (r & Hr & _).
  apply lookup_lt_is_Some. eauto.
Qed.

(** ** More on the write *)

(** The record at [sb] with [MS_RDONLY] cleared. *)
Lemma clear_device_store_found (buf : list ascii) (count : Z) (s : state)
    (sb : nat) :
  length (clear_device s) = 64%nat ->
  find_ext4_superblock_by_dev
    (stored_buffer buf count (clear_device s)) (super_blocks s) = Some sb ->
  exists r, super_blocks s !! sb = Some r /\
    clear_device_store buf count s =
      Some (to_ssize count,
            if is_read_only r then
              add_klog line_completed
                (set_super_blocks
                   (<[sb := set_s_flags (clear_rdonly_bit (s_flags r)) r]>
                      (super_blocks s))
                   (add_klog
                      (line_clearing
                         (stored_buffer buf count (clear_device s)))
                      (after_copy buf count s)))
            else
              add_klog
                (line_not_marked (stored_buffer buf count (clear_device s)))
                (after_copy buf count s)).
Proof.
  intros Hcd Hfind. rewrite (clear_device_store_eq _ _ _ Hcd), Hfind.
  apply find_Some in Hfind as (r & Hr & _). exists r. split; [exact Hr|].
  destruct (is_read_only r) eqn:Hro.
  - rewrite (clear_read_only_set sb (after_copy buf count s) r Hr Hro).
    reflexivity.
  - rewrite (clear_read_only_unset sb (after_copy buf count s) r Hr Hro).
    reflexivity.
Qed.

Lemma clear_device_store_not_found (buf : list ascii) (count : Z)
    (s : state) :
  length (clear_device s) = 64%nat ->
  find_ext4_superblock_by_dev
    (stored_buffer buf count (clear_device s)) (super_blocks s) = None ->
  clear_device_store buf count s =
    Some (to_ssize count,
          add_klog (line_not_found (stored_buffer buf count (clear_device s)))
            (after_copy buf count s)).
Proof.
  intros Hcd Hfind. rewrite (clear_device_store_eq _ _ _ Hcd), Hfind.
  reflexivity.
Qed.

(** The stored name, when [buf] holds the [count] bytes. *)
Lemma stored_buffer_name (buf : list ascii) (count : Z) (cd : list ascii) :
  0 <= count <= Z.of_nat (length buf) ->
  cstr (stored_buffer buf count cd) = cstr (trim (truncate buf count)).
Proof.
  intros Hcount. rewrite stored_buffer_cstr.
  apply cstr_trim_strncpy_image. unfold store_len, sizeof_clear_device. lia.
Qed.

(** X3.  A write whose name the scanner finds acts on the first matching
    record and on no other: afterwards that record is writable, its block
    device, its type and the other bits of its flags are as before, and
    every other record is untouched. *)
Theorem store_clears_first_match (s : state) (buf : list ascii) (count : Z)
    (sb : nat) :
  length (clear_device s) = 64%nat ->
  0 <= count <= Z.of_nat (length buf) ->
  find_ext4_superblock_by_dev (trim (truncate buf count)) (super_blocks s)
    = Some sb ->
  exists s' r r',
    clear_device_store buf count s = Some (to_ssize count, s') /\
    super_blocks s !! sb = Some r /\ super_blocks s' !! sb = Some r' /\
    is_read_only r' = false /\
    s_bdev r' = s_bdev r /\ s_type r' = s_type r /\
    (forall n, 0 < n < ULONG_BITS ->
       Z.testbit (s_flags r') n = Z.testbit (s_flags r) n) /\
    (forall j, j <> sb -> super_blocks s' !! j = super_blocks s !! j).
Proof.
  intros Hcd Hcount Hfind.
  rewrite <- (find_cstr (stored_buffer buf count (clear_device s))) in Hfind
    by apply stored_buffer_name, Hcount.
  destruct (clear_device_store_found _ _ _ _ Hcd Hfind) as (r & Hr & Hrun).
  pose proof (find_lt _ _ _ Hfind) as Hlt.
  destruct (is_read_only r) eqn:Hro.
  - eexists _, r, _. split; [exact Hrun|]. split; [exact Hr|].
    cbn [super_blocks add_klog set_super_blocks].
    split; [apply list_lookup_insert_eq, Hlt|].
    split; [apply is_read_only_clear_rdonly_bit|].
    split; [reflexivity|]. split; [reflexivity|].
    split; [intros n Hn; apply clear_rdonly_bit_other, Hn|].
    intros j Hj. apply list_lookup_insert_ne. congruence.
  - eexists _, r, r. split; [exact Hrun|]. split; [exact Hr|].
    split; [exact Hr|]. split; [exact Hro|]. repeat split; reflexivity.
Qed.

Lemma store_clears_first_match_witness :
  (length (clear_device sample_state) = 64%nat /\
   find_ext4_superblock_by_dev (trim (truncate (chars "sda1" ++ [LF]) 5))
     (super_blocks sample_state) = Some 2%nat) /\
  exists s' r',
    clear_device_store (chars "sda1" ++ [LF]) 5 sample_state
      = Some (5, s') /\
    super_blocks s' !! 2%nat = Some r' /\ is_read_only r' = false.
Proof.
  split; [split; reflexivity|].
  destruct (store_clears_first_match sample_state (chars "sda1" ++ [LF]) 5 2)
    as (s' & r & r' & Hrun & _ & Hr' & Hro & _).
  - reflexivity.
  - split; discriminate.
  - reflexivity.
  - exists s', r'. split; [exact Hrun|]. split; [exact Hr' | exact Hro].
Defined.

(** The three ways a write ends, with the whole state it leaves. *)
Lemma store_cases (s : state) (buf : list ascii) (count : Z) :
  length (clear_device s) = 64%nat ->
  exists s', clear_device_store buf count s = Some (to_ssize count, s') /\
    clear_device s' = stored_buffer buf count (clear_device s) /\
    ((find_ext4_superblock_by_dev (clear_device s') (super_blocks s) = None /\
      super_blocks s' = super_blocks s /\
      klog s' = klog s ++ [line_requested (clear_device s');
                           line_not_found (clear_device s')]) \/
     (exists sb r,
        find_ext4_superblock_by_dev (clear_device s') (super_blocks s)
          = Some sb /\
        super_blocks s !! sb = Some r /\ is_read_only r = false /\
        super_blocks s' = super_blocks s /\
        klog s' = klog s ++ [line_requested (clear_device s');
                             line_not_marked (clear_device s')]) \/
     (exists sb r,
        find_ext4_superblock_by_dev (clear_device s') (super_blocks s)
          = Some sb /\
        super_blocks s !! sb = Some r /\ is_read_only r = true /\
        super_blocks s' =
          <[sb := set_s_flags (clear_rdonly_bit (s_flags r)) r]>
            (super_blocks s) /\
        klog s' = klog s ++ [line_requested (clear_device s');
                             line_clearing (clear_device s');
                             line_completed])).
Proof.
  intros Hcd.
  destruct (find_ext4_superblock_by_dev
              (stored_buffer buf count (clear_device s)) (super_blocks s))
    as [sb|] eqn:Hfind.
  - destruct (clear_device_store_found _ _ _ _ Hcd Hfind) as (r & Hr & Hrun).
    destruct (is_read_only r) eqn:Hro.
    + eexists. split; [exact Hrun|]. split; [reflexivity|].
      right. right. exists sb, r.
      cbn [clear_device super_blocks klog add_klog set_super_blocks
           set_clear_device after_copy].
      repeat split; try assumption.
      rewrite <- !app_assoc. reflexivity.
    + eexists. split; [exact Hrun|]. split; [reflexivity|].
      right. left. exists sb, r.
      cbn [clear_device super_blocks klog add_klog set_super_blocks
           set_clear_device after_copy].
      repeat split; try assumption.
      rewrite <- !app_assoc. reflexivity.
  - eexists. split; [apply (clear_device_store_not_found _ _ _ Hcd Hfind)|].
    split; [reflexivity|]. left.
    cbn [clear_device super_blocks klog add_klog set_super_blocks
         set_clear_device after_copy].
    repeat split; try assumption.
    rewrite <- !app_assoc. reflexivity.
Qed.

(** X4.  A write only ever clears: it keeps the number of records and the
    block device, the type and the flag bits other than [MS_RDONLY] of
    each; no record that was writable becomes read-only; and at most one
    record changes. *)
Theorem store_only_clears (s : state) (buf : list ascii) (count : Z) :
  length (clear_device s) = 64%nat ->
  exists s', clear_device_store buf count s = Some (to_ssize count, s') /\
    length (super_blocks s') = length (super_blocks s) /\
    (forall j r', super_blocks s' !! j = Some r' ->
       exists r, super_blocks s !! j = Some r /\
         s_bdev r' = s_bdev r /\ s_type r' = s_type r /\
         (is_read_only r' = true -> is_read_only r = true) /\
         forall n, 0 < n < ULONG_BITS ->
           Z.testbit (s_flags r') n = Z.testbit (s_flags r) n) /\
    (forall j k,
       super_blocks s' !! j <> super_blocks s !! j ->
       super_blocks s' !! k <> super_blocks s !! k -> j = k).
Proof.
  intros Hcd.
  destruct (store_cases s buf count Hcd) as (s' & Hrun & _ & Hcase).
  exists s'. split; [exact Hrun|].
  assert (super_blocks s' = super_blocks s ->
          length (super_blocks s') = length (super_blocks s) /\
          (forall j r', super_blocks s' !! j = Some r' ->
             exists r, super_blocks s !! j = Some r /\
               s_bdev r' = s_bdev r /\ s_type r' = s_type r /\
               (is_read_only r' = true -> is_read_only r = true) /\
               forall n, 0 < n < ULONG_BITS ->
                 Z.testbit (s_flags r') n = Z.testbit (s_flags r) n) /\
          (forall j k,
             super_blocks s' !! j <> super_blocks s !! j ->
             super_blocks s' !! k <> super_blocks s !! k -> j = k)) as Hsame.
  { intros ->. split; [reflexivity|]. split.
    - intros j r' Hj. exists r'. auto.
    - intros j k Hj. contradiction. }
  destruct Hcase as [(_ & Hsb & _)|[(sb & r & _ & _ & _ & Hsb & _)|
                     (sb & r & Hfind & Hr & Hro & Hsb & _)]]; auto.
  rewrite Hsb. split; [apply length_insert|]. split.
  - intros j r' Hj. destruct (decide (j = sb)) as [->|Hne].
    + rewrite list_lookup_insert_eq in Hj
        by (apply lookup_lt_is_Some; eauto).
      injection Hj as <-. exists r. split; [exact Hr|].
      split; [reflexivity|]. split; [reflexivity|]. split; [auto|].
      intros n Hn. apply clear_rdonly_bit_other, Hn.
    + rewrite list_lookup_insert_ne in Hj by congruence.
      exists r'. auto.
  - intros j k Hj Hk.
    destruct (decide (j = sb)) as [->|Hj'];
      [|rewrite list_lookup_insert_ne in Hj by congruence; contradiction].
    destruct (decide (k = sb)) as [->|Hk']; [reflexivity|].
    rewrite list_lookup_insert_ne in Hk by congruence. contradiction.
Qed.

Lemma store_only_clears_witness :
  length (clear_device sample_state) = 64%nat /\
  exists s', clear_device_store (chars "sda1" ++ [LF]) 5 sample_state
               = Some (5, s') /\
    length (super_blocks s') = 5%nat.
Proof.
  split; [reflexivity|].
  destruct (store_only_clears sample_state (chars "sda1" ++ [LF]) 5 eq_refl)
    as (s' & Hrun & Hlen & _).
  exists s'. split; [exact Hrun | exact Hlen].
Defined.

(** The bytes of [clear_device] after index [len] survive a write. *)
Lemma stored_buffer_drop (buf : list ascii) (count : Z) (cd : list ascii) :
  drop (S (store_len count)) (stored_buffer buf count cd) =
  drop (S (store_len count)) cd.
Proof.
  unfold stored_buffer.
  pose proof (trim_length (strncpy_image buf (store_len count))) as Ht.
  rewrite strncpy_image_length in Ht.
  set (name := trim (strncpy_image buf (store_len count))) in *.
  replace (name ++ replicate (store_len count - length name) NUL ++
           NUL :: drop (S (store_len count)) cd)
    with ((name ++ replicate (store_len count - length name) NUL ++ [NUL])
          ++ drop (S (store_len count)) cd)
    by (rewrite <- !app_assoc; reflexivity).
  apply drop_app_length'.
  rewrite !length_app, length_replicate. simpl. lia.
Qed.

(** The bytes up to index [len] are fixed by the input. *)
Lemma stored_buffer_take (buf : list ascii) (count : Z) (cd : list ascii) :
  take (S (store_len count)) (stored_buffer buf count cd) =
  trim (strncpy_image buf (store_len count)) ++
  replicate (S (store_len count)
             - length (trim (strncpy_image buf (store_len count)))) NUL.
Proof.
  unfold stored_buffer.
  pose proof (trim_length (strncpy_image buf (store_len count))) as Ht.
  rewrite strncpy_image_length in Ht.
  set (name := trim (strncpy_image buf (store_len count))) in *.
  replace (name ++ replicate (store_len count - length name) NUL ++
           NUL :: drop (S (store_len count)) cd)
    with ((name ++ replicate (S (store_len count) - length name) NUL)
          ++ drop (S (store_len count)) cd).
  - apply take_app_length'. rewrite length_app, length_replicate. lia.
  - replace (S (store_len count) - length name)%nat
      with (S (store_len count - length name)) by lia.
    rewrite replicate_S_end, <- !app_assoc. reflexivity.
Qed.

Lemma stored_buffer_idem (buf : list ascii) (count : Z) (cd : list ascii) :
  stored_buffer buf count (stored_buffer buf count cd) =
  stored_buffer buf count cd.
Proof.
  unfold stored_buffer at 1. rewrite stored_buffer_drop. reflexivity.
Qed.

Lemma find_insert_flags (d : list ascii) (supers : list super_block)
    (i : nat) (r : super_block) (v : Z) :
  supers !! i = Some r ->
  find_ext4_superblock_by_dev d (<[i := set_s_flags v r]> supers) =
  find_ext4_superblock_by_dev d supers.
Proof.
  unfold find_ext4_superblock_by_dev. generalize 0%nat. revert i.
  induction supers as [|a rest IH]; intros i idx Hi; [discriminate|].
  destruct i as [|i]; simpl in Hi.
  - injection Hi as ->. cbn [insert list_insert].
    rewrite !for_each_super_cons.
    rewrite (sb_matches_fields d (set_s_flags v r) r); reflexivity.
  - change (<[S i:=set_s_flags v r]> (a :: rest))
      with (a :: <[i:=set_s_flags v r]> rest).
    rewrite !for_each_super_cons, (IH i _ Hi). reflexivity.
Qed.

(** X5.  Writing the same bytes twice: the second write finds the buffer
    and every record as the first left them and changes neither; it logs
    the name and then that nothing was found or that the record was not
    read-only, never that it is clearing. *)
Theorem store_twice (s : state) (buf : list ascii) (count : Z) :
  length (clear_device s) = 64%nat ->
  exists s1 s2,
    clear_device_store buf count s = Some (to_ssize count, s1) /\
    clear_device_store buf count s1 = Some (to_ssize count, s2) /\
    clear_device s2 = clear_device s1 /\
    super_blocks s2 = super_blocks s1 /\
    (klog s2 = klog s1 ++ [line_requested (clear_device s1);
                           line_not_found (clear_device s1)] \/
     klog s2 = klog s1 ++ [line_requested (clear_device s1);
                           line_not_marked (clear_device s1)]).
Proof.
  intros Hcd.
  destruct (store_cases s buf count Hcd) as (s1 & Hrun1 & Hcd1 & Hcase1).
  assert (length (clear_device s1) = 64%nat) as Hlen1
    by (rewrite Hcd1; apply stored_buffer_length, Hcd).
  destruct (store_cases s1 buf count Hlen1) as (s2 & Hrun2 & Hcd2 & Hcase2).
  assert (clear_device s2 = clear_device s1) as Heq
    by (rewrite Hcd2, Hcd1; apply stored_buffer_idem).
  exists s1, s2. split; [exact Hrun1|]. split; [exact Hrun2|].
  split; [exact Heq|]. rewrite Heq in Hcase2.
  destruct Hcase2 as [(_ & Hsb & Hlog)|[(sb & r & _ & _ & _ & Hsb & Hlog)|
                      (sb & r1 & Hfind2 & Hr1 & Hro1 & _)]]; auto.
  exfalso.
  destruct Hcase1 as [(Hfind1 & Hsb1 & _)|[(sb' & r & Hfind1 & Hr & Hro & Hsb1 & _)|
                      (sb' & r & Hfind1 & Hr & Hro & Hsb1 & _)]].
  - rewrite Hsb1 in Hfind2. congruence.
  - rewrite Hsb1 in Hfind2, Hr1. congruence.
  - rewrite Hsb1 in Hfind2, Hr1.
    rewrite (find_insert_flags _ _ _ _ _ Hr) in Hfind2.
    assert (sb = sb') as -> by congruence.
    rewrite list_lookup_insert_eq in Hr1
      by (apply lookup_lt_is_Some; eauto).
    injection Hr1 as <-.
    rewrite is_read_only_clear_rdonly_bit in Hro1. discriminate.
Qed.

Lemma store_twice_witness :
  length (clear_device sample_state) = 64%nat /\
  exists s1 s2,
    clear_device_store (chars "sda1" ++ [LF]) 5 sample_state
      = Some (5, s1) /\
    clear_device_store (chars "sda1" ++ [LF]) 5 s1 = Some (5, s2) /\
    super_blocks s2 = super_blocks s1.
Proof.
  split; [reflexivity|].
  destruct (store_twice sample_state (chars "sda1" ++ [LF]) 5 eq_refl)
    as (s1 & s2 & H1 & H2 & _ & Hsb & _).
  exists s1, s2. split; [exact H1|]. split; [exact H2 | exact Hsb].
Defined.

(** X6.  A write overwrites the bytes 0 to [len] of [clear_device], where
    [len] is [min(count, 63)], and nothing else: those bytes and the stored
    name are the same whatever the buffer held before, and the bytes after
    index [len] are the old ones. *)
Theorem store_overwrites_prefix_only (s1 s2 : state) (buf : list ascii)
    (count : Z) :
  length (clear_device s1) = 64%nat ->
  length (clear_device s2) = 64%nat ->
  exists s1' s2',
    clear_device_store buf count s1 = Some (to_ssize count, s1') /\
    clear_device_store buf count s2 = Some (to_ssize count, s2') /\
    take (S (store_len count)) (clear_device s1') =
      take (S (store_len count)) (clear_device s2') /\
    RequestedDeviceName s1' = RequestedDeviceName s2' /\
    drop (S (store_len count)) (clear_device s1') =
      drop (S (store_len count)) (clear_device s1) /\
    drop (S (store_len count)) (clear_device s2') =
      drop (S (store_len count)) (clear_device s2).
Proof.
  intros H1 H2.
  destruct (clear_device_store_total buf count s1 H1) as (s1' & Hr1 & Hc1).
  destruct (clear_device_store_total buf count s2 H2) as (s2' & Hr2 & Hc2).
  exists s1', s2'. split; [exact Hr1|]. split; [exact Hr2|].
  unfold RequestedDeviceName. rewrite Hc1, Hc2.
  rewrite !stored_buffer_take, !stored_buffer_cstr, !stored_buffer_drop.
  repeat split; reflexivity.
Qed.

Lemma store_overwrites_prefix_only_witness :
  (length (clear_device sample_state) = 64%nat /\
   length (clear_device
             (set_clear_device (replicate 64 "z"%char) sample_state))
     = 64%nat) /\
  exists s1' s2',
    clear_device_store (chars "sdb" ++ [LF]) 4 sample_state
      = Some (4, s1') /\
    clear_device_store (chars "sdb" ++ [LF]) 4
      (set_clear_device (replicate 64 "z"%char) sample_state)
      = Some (4, s2') /\
    RequestedDeviceName s1' = RequestedDeviceName s2' /\
    drop 5 (clear_device s2') = replicate 59 "z"%char.
Proof.
  split; [split; reflexivity|].
  destruct (store_overwrites_prefix_only sample_state
              (set_clear_device (replicate 64 "z"%char) sample_state)
              (chars "sdb" ++ [LF]) 4 eq_refl eq_refl)
    as (s1' & s2' & H1 & H2 & _ & Hn & _ & Hd).
  exists s1', s2'. split; [exact H1|]. split; [exact H2|].
  split; [exact Hn | exact Hd].
Defined.

(** *** The shape of the stored name *)

Lemma cstr_not_NUL (l : list ascii) : NUL ∉ cstr l.
Proof.
  induction l as [|c l IH]; [apply not_elem_of_nil|].
  rewrite cstr_cons. destruct (Ascii.eqb c NUL) eqn:Ec.
  - apply not_elem_of_nil.
  - apply ascii_eqb_false in Ec. apply not_elem_of_cons. auto.
Qed.

Lemma cstr_prefix (l : list ascii) : cstr l `prefix_of` l.
Proof.
  induction l as [|c l IH]; [reflexivity|].
  rewrite cstr_cons. destruct (Ascii.eqb c NUL).
  - apply prefix_nil.
  - apply prefix_cons, IH.
Qed.

Lemma cstr_mono (a b : list ascii) :
  a `prefix_of` b -> cstr a `prefix_of` cstr b.
Proof.
  intros [k ->]. induction a as [|c a IH]; [apply prefix_nil|].
  rewrite <- app_comm_cons, !cstr_cons. destruct (Ascii.eqb c NUL).
  - reflexivity.
  - apply prefix_cons, IH.
Qed.

Lemma cstr_length_NUL (l : list ascii) :
  NUL ∈ l -> (length (cstr l) < length l)%nat.
Proof.
  induction l as [|c l IH]; intros Hin; [inversion Hin|].
  rewrite cstr_cons. destruct (Ascii.eqb c NUL) eqn:Ec; simpl; [lia|].
  apply ascii_eqb_false in Ec.
  apply elem_of_cons in Hin as [Heq|Hin]; [congruence|].
  specialize (IH Hin). lia.
Qed.

Lemma trim_all_eol (l : list ascii) :
  Forall (fun c => is_eol c = true) l -> trim l = [].
Proof.
  induction 1 as [|c l Hc _ IH]; [reflexivity|].
  simpl. rewrite IH, Hc. reflexivity.
Qed.

(** X7.  The name a write stores is a prefix of the bytes written, holds no
    NUL and has at most [min(count, 63)] characters; when the bytes copied
    hold no NUL, it does not end in a newline or a carriage return. *)
Theorem stored_name_shape (s : state) (buf : list ascii) (count : Z) :
  length (clear_device s) = 64%nat ->
  exists s', clear_device_store buf count s = Some (to_ssize count, s') /\
    (RequestedDeviceName s' `prefix_of` buf) /\
    (NUL ∉ RequestedDeviceName s') /\
    (length (RequestedDeviceName s') <= store_len count <= 63)%nat /\
    (0 <= count <= Z.of_nat (length buf) ->
     Forall (fun c => c <> NUL) (truncate buf count) ->
     forall c, last (RequestedDeviceName s') = Some c -> is_eol c = false).
Proof.
  intros Hcd.
  destruct (clear_device_store_total buf count s Hcd) as (s' & Hrun & Hcd').
  exists s'. split; [exact Hrun|].
  assert (RequestedDeviceName s' =
          cstr (trim (strncpy_image buf (store_len count)))) as Hreq
    by (unfold RequestedDeviceName; rewrite Hcd'; apply stored_buffer_cstr).
  rewrite Hreq. split; [|split; [apply cstr_not_NUL|split]].
  - etransitivity.
    { apply cstr_mono.
      destruct (trim_prefix (strncpy_image buf (store_len count)))
        as [k Hk].
      exists k. exact Hk. }
    rewrite cstr_strncpy_image. etransitivity; [apply cstr_prefix|].
    apply prefix_take.
  - split; [|apply store_len_bound].
    pose proof (cstr_length (trim (strncpy_image buf (store_len count)))).
    pose proof (trim_length (strncpy_image buf (store_len count))) as Ht.
    rewrite strncpy_image_length in Ht. lia.
  - intros Hcount Hz c Hc.
    rewrite cstr_trim_strncpy_image in Hc
      by (unfold store_len, sizeof_clear_device; lia).
    fold (truncate buf count) in Hc.
    rewrite (cstr_no_NUL _ (trim_Forall _ _ Hz)) in Hc.
    destruct (trim_spec (truncate buf count)) as (k & _ & _ & Hlast).
    exact (Hlast c Hc).
Qed.

Lemma stored_name_shape_witness :
  length (clear_device sample_state) = 64%nat /\
  exists s', clear_device_store long_input 65 sample_state = Some (65, s') /\
    (RequestedDeviceName s' `prefix_of` long_input) /\
    (length (RequestedDeviceName s') <= 63)%nat.
Proof.
  split; [reflexivity|].
  destruct (stored_name_shape sample_state long_input 65 eq_refl)
    as (s' & Hrun & Hpre & _ & Hlen & _).
  exists s'. split; [exact Hrun|]. split; [exact Hpre | lia].
Defined.

(** X8.  A NUL among the bytes copied ends the name and shields what is
    before it from trimming: the stored name is the bytes before the first
    NUL, unchanged, even when they end in a newline. *)
Theorem store_embedded_NUL (s : state) (p q : list ascii) (count : Z) :
  length (clear_device s) = 64%nat ->
  Forall (fun c => c <> NUL) p ->
  (length p < store_len count)%nat ->
  exists s',
    clear_device_store (p ++ NUL :: q) count s = Some (to_ssize count, s') /\
    RequestedDeviceName s' = p.
Proof.
  intros Hcd Hp Hlen.
  destruct (clear_device_store_total (p ++ NUL :: q) count s Hcd)
    as (s' & Hrun & Hcd').
  exists s'. split; [exact Hrun|].
  unfold RequestedDeviceName. rewrite Hcd', stored_buffer_cstr.
  assert (take (store_len count) (p ++ NUL :: q) =
          p ++ NUL :: take (store_len count - S (length p)) q) as Htake.
  { rewrite take_app, take_ge by lia. f_equal.
    replace (store_len count - length p)%nat
      with (S (store_len count - S (length p))) by lia.
    reflexivity. }
  rewrite cstr_trim_NUL.
  - rewrite cstr_strncpy_image, Htake, cstr_app_NUL.
    apply cstr_no_NUL, Hp.
  - apply strncpy_image_NUL. rewrite Htake.
    apply elem_of_app. right. apply list_elem_of_here.
Qed.

Lemma store_embedded_NUL_witness :
  (length (clear_device sample_state) = 64%nat /\
   Forall (fun c => c <> NUL) (chars "sda1" ++ [LF]) /\
   (length (chars "sda1" ++ [LF]) < store_len 9)%nat) /\
  exists s',
    clear_device_store ((chars "sda1" ++ [LF]) ++ NUL :: chars "xy" ++ [LF])
      9 sample_state = Some (9, s') /\
    RequestedDeviceName s' = chars "sda1" ++ [LF].
Proof.
  assert (Forall (fun c => c <> NUL) (chars "sda1" ++ [LF])) as Hp
    by (repeat constructor; discriminate).
  assert (length (chars "sda1" ++ [LF]) < store_len 9)%nat as Hlen
    by (vm_compute; lia).
  split; [split; [reflexivity | split; assumption]|].
  apply (store_embedded_NUL sample_state (chars "sda1" ++ [LF])
           (chars "xy" ++ [LF]) 9 eq_refl Hp Hlen).
Defined.

(** X9.  A write of nothing but newlines and carriage returns, the empty
    write included, stores the empty name; a read then returns a single
    newline. *)
Theorem store_blank_input (s : state) (buf : list ascii) (count : Z) :
  length (clear_device s) = 64%nat ->
  0 <= count <= Z.of_nat (length buf) ->
  Forall (fun c => is_eol c = true) (truncate buf count) ->
  exists s', clear_device_store buf count s = Some (to_ssize count, s') /\
    RequestedDeviceName s' = [] /\
    attribute_read s' = Some [LF].
Proof.
  intros Hcd Hcount Hblank.
  destruct (clear_device_store_total buf count s Hcd) as (s' & Hrun & Hcd').
  assert (RequestedDeviceName s' = []) as Hreq.
  { unfold RequestedDeviceName.
    rewrite Hcd', (stored_buffer_name _ _ _ Hcount).
    rewrite (trim_all_eol _ Hblank). reflexivity. }
  exists s'. split; [exact Hrun|]. split; [exact Hreq|].
  rewrite attribute_read_short; rewrite Hreq; [reflexivity | simpl; lia].
Qed.

Lemma store_blank_input_witness :
  (length (clear_device sample_state) = 64%nat /\
   0 <= 2 <= Z.of_nat (length [CR; LF]) /\
   Forall (fun c => is_eol c = true) (truncate [CR; LF] 2)) /\
  exists s', clear_device_store [CR; LF] 2 sample_state = Some (2, s') /\
    RequestedDeviceName s' = [] /\
    attribute_read s' = Some [LF].
Proof.
  assert (Forall (fun c => is_eol c = true) (truncate [CR; LF] 2)) as Hb
    by (repeat constructor).
  assert (0 <= 2 <= Z.of_nat (length [CR; LF])) as Hc
    by (split; discriminate).
  split; [split; [reflexivity | split; assumption]|].
  apply (store_blank_input sample_state [CR; LF] 2 eq_refl Hc Hb).
Defined.

(** *** Reading back *)

(** X10.  Write then read, for every input: the read returns the stored
    name, which is the first [min(count, 63)] bytes of the input trimmed
    and read as a C string, followed by one newline; the show callback
    returns the length of that answer and changes nothing. *)
Theorem store_show_round_trip (s : state) (buf : list ascii) (count : Z) :
  length (clear_device s) = 64%nat ->
  0 <= count <= Z.of_nat (length buf) ->
  exists s', clear_device_store buf count s = Some (to_ssize count, s') /\
    attribute_read s' = Some (cstr (trim (truncate buf count)) ++ [LF]) /\
    clear_device_show s' =
      Some ((cstr (trim (truncate buf count)) ++ [LF],
             Z.of_nat (length (cstr (trim (truncate buf count)))) + 1), s').
Proof.
  intros Hcd Hcount.
  destruct (clear_device_store_total buf count s Hcd) as (s' & Hrun & Hcd').
  assert (RequestedDeviceName s' = cstr (trim (truncate buf count))) as Hreq
    by (unfold RequestedDeviceName; rewrite Hcd';
        apply stored_buffer_name, Hcount).
  assert (length (cstr (trim (truncate buf count))) <= 63)%nat as Hlen.
  { pose proof (cstr_length (trim (truncate buf count))).
    pose proof (trim_length (truncate buf count)) as Ht.
    unfold truncate in Ht at 2. rewrite length_take in Ht.
    pose proof (store_len_bound count). lia. }
  exists s'. split; [exact Hrun|]. split.
  - rewrite attribute_read_short; rewrite Hreq; [reflexivity | lia].
  - unfold clear_device_show, bind, addr_clear_device, ret, scnprintf_s_nl.
    change (PAGE_SIZE <=? 0) with false. cbv iota.
    fold (RequestedDeviceName s'). rewrite Hreq.
    change (Z.to_nat (PAGE_SIZE - 1)) with 4095%nat.
    rewrite take_ge by (rewrite length_app; simpl; lia).
    rewrite length_app. simpl length. do 3 f_equal. lia.
Qed.

Lemma store_show_round_trip_witness :
  (length (clear_device sample_state) = 64%nat /\
   0 <= 6 <= Z.of_nat (length (chars "sdb" ++ [CR; LF; LF]))) /\
  exists s',
    clear_device_store (chars "sdb" ++ [CR; LF; LF]) 6 sample_state
      = Some (6, s') /\
    attribute_read s' = Some (chars "sdb" ++ [LF]).
Proof.
  assert (0 <= 6 <= Z.of_nat (length (chars "sdb" ++ [CR; LF; LF]))) as Hc
    by (split; discriminate).
  split; [split; [reflexivity | exact Hc]|].
  destruct (store_show_round_trip sample_state (chars "sdb" ++ [CR; LF; LF])
              6 eq_refl Hc) as (s' & Hrun & Hread & _).
  exists s'. split; [exact Hrun | exact Hread].
Defined.

(** X11.  A write leaves [clear_device] with its 64 bytes and a NUL among
    them, whatever the 64 bytes held before; so does the buffer the module
    starts with. *)
Theorem store_keeps_buffer_ok (s : state) (buf : list ascii) (count : Z) :
  length (clear_device s) = 64%nat ->
  buffer_ok (set_clear_device clear_device_init s) /\
  exists s', clear_device_store buf count s = Some (to_ssize count, s') /\
    buffer_ok s'.
Proof.
  intros Hcd. split.
  - split; [reflexivity|]. apply list_elem_of_here.
  - destruct (clear_device_store_total buf count s Hcd)
      as (s' & Hrun & Hcd').
    exists s'. split; [exact Hrun|]. unfold buffer_ok. rewrite Hcd'.
    split; [apply stored_buffer_length, Hcd|].
    apply list_elem_of_lookup. exists (store_len count).
    apply stored_buffer_terminator.
Qed.

Lemma store_keeps_buffer_ok_witness :
  length (clear_device
            (set_clear_device (replicate 64 "z"%char) sample_state))
    = 64%nat /\
  exists s',
    clear_device_store long_input 65
      (set_clear_device (replicate 64 "z"%char) sample_state)
      = Some (65, s') /\
    buffer_ok s'.
Proof.
  split; [reflexivity|].
  apply (store_keeps_buffer_ok
           (set_clear_device (replicate 64 "z"%char) sample_state)
           long_input 65 eq_refl).
Defined.

(** X12.  On a buffer that holds a NUL, the show callback writes the name
    and one newline, between 1 and 64 bytes with no NUL among them, returns
    their number and changes nothing. *)
Theorem show_bounded (s : state) :
  buffer_ok s ->
  exists page n,
    clear_device_show s = Some ((page, n), s) /\
    page = RequestedDeviceName s ++ [LF] /\
    n = Z.of_nat (length page) /\ 1 <= n <= 64 /\
    (NUL ∉ page).
Proof.
  intros [Hlen Hnul].
  pose proof (cstr_length_NUL _ Hnul) as Hname. rewrite Hlen in Hname.
  exists (RequestedDeviceName s ++ [LF]),
    (Z.of_nat (length (RequestedDeviceName s ++ [LF]))).
  split; [|split; [reflexivity|split; [reflexivity|split]]].
  - unfold clear_device_show, bind, addr_clear_device, ret, scnprintf_s_nl.
    change (PAGE_SIZE <=? 0) with false. cbv iota.
    fold (RequestedDeviceName s).
    change (Z.to_nat (PAGE_SIZE - 1)) with 4095%nat.
    rewrite take_ge; [reflexivity|].
    rewrite length_app. unfold RequestedDeviceName. simpl. lia.
  - rewrite length_app. unfold RequestedDeviceName. simpl. lia.
  - intros Hin. apply elem_of_app in Hin as [Hin|Hin].
    + exact (cstr_not_NUL _ Hin).
    + apply list_elem_of_singleton in Hin. discriminate.
Qed.

Lemma show_bounded_witness :
  buffer_ok sample_state /\
  exists page n,
    clear_device_show sample_state = Some ((page, n), sample_state) /\
    page = [LF] /\ n = 1.
Proof.
  assert (buffer_ok sample_state) as Hok
    by (split; [reflexivity | apply list_elem_of_here]).
  split; [exact Hok|].
  destruct (show_bounded sample_state Hok) as (page & n & Hrun & -> & -> & _).
  eexists _, _. split; [exact Hrun|]. split; reflexivity.
Defined.

(** *** The log *)

(** X13.  A write keeps the lines already in the log and appends the name
    requested and then the outcome of the lookup: one warning when no
    record is found, one line when the record found is already writable,
    two lines when its flag is cleared.  The super blocks change only in
    the last case. *)
Theorem store_log (s : state) (buf : list ascii) (count : Z) :
  length (clear_device s) = 64%nat ->
  exists s' lines,
    clear_device_store buf count s = Some (to_ssize count, s') /\
    klog s' = klog s ++ line_requested (clear_device s') :: lines /\
    match find_ext4_superblock_by_dev (clear_device s') (super_blocks s) with
    | None =>
        lines = [line_not_found (clear_device s')] /\
        super_blocks s' = super_blocks s
    | Some sb =>
        exists r, super_blocks s !! sb = Some r /\
          if is_read_only r
          then lines = [line_clearing (clear_device s'); line_completed]
          else lines = [line_not_marked (clear_device s')] /\
               super_blocks s' = super_blocks s
    end.
Proof.
  intros Hcd.
  destruct (store_cases s buf count Hcd) as (s' & Hrun & _ & Hcase).
  destruct Hcase as [(Hfind & Hsb & Hlog)|[(sb & r & Hfind & Hr & Hro & Hsb & Hlog)|
                     (sb & r & Hfind & Hr & Hro & Hsb & Hlog)]].
  - exists s', [line_not_found (clear_device s')].
    split; [exact Hrun|]. split; [exact Hlog|]. rewrite Hfind. auto.
  - exists s', [line_not_marked (clear_device s')].
    split; [exact Hrun|]. split; [exact Hlog|]. rewrite Hfind.
    exists r. split; [exact Hr|]. rewrite Hro. auto.
  - exists s', [line_clearing (clear_device s'); line_completed].
    split; [exact Hrun|]. split; [exact Hlog|]. rewrite Hfind.
    exists r. split; [exact Hr|]. rewrite Hro. reflexivity.
Qed.

Lemma store_log_witness :
  length (clear_device sample_state) = 64%nat /\
  exists s',
    clear_device_store (chars "sdc" ++ [LF]) 4 sample_state = Some (4, s') /\
    klog s' = [line_requested (chars "sdc"); line_not_found (chars "sdc")].
Proof.
  split; [reflexivity|].
  destruct (store_log sample_state (chars "sdc" ++ [LF]) 4 eq_refl)
    as (s' & lines & Hrun & Hlog & _).
  exists s'. split; [exact Hrun|].
  vm_compute in Hrun. injection Hrun as <-. reflexivity.
Defined.

(** ** Load and unload *)

(** X14.  Loading fails exactly when the host refuses the kobject or the
    attribute group.  Without a kobject the module returns [-ENOMEM] after
    that one call and logs nothing; when the group is refused it returns
    the host's status and puts the kobject it created, so that no reference
    is left, and still logs that the module is loaded.  In neither case are
    [clear_device] or the super blocks touched. *)
Theorem init_failure (h : host_answers) (s s' : state) (ret : Z)
    (calls : list host_call) :
  clear_sb_ro_init h s = (ret, calls, s') ->
  (ret = 0 <-> exists kobj, created h = Some kobj /\ group_status h = 0) /\
  (created h = None ->
   ret = - ENOMEM /\ s' = s /\
   calls = [Kobject_create_and_add (chars "clear_sb_ro") None]) /\
  (forall kobj, created h = Some kobj -> group_status h <> 0 ->
   ret = group_status h /\ last calls = Some (Kobject_put kobj) /\
   klog s' = klog s ++ [line_loaded]) /\
  (ret <> 0 -> forall k, kobject_refs k calls = 0) /\
  clear_device s' = clear_device s /\ super_blocks s' = super_blocks s.
Proof.
  unfold clear_sb_ro_init. destruct (created h) as [kobj|] eqn:Hc.
  - intros Hrun. injection Hrun as <- <- <-.
    destruct (Z.eqb_spec (group_status h) 0) as [H0|Hn0].
    + split; [split; [eauto | intros _; exact H0]|].
      split; [discriminate|].
      split; [intros k _ Hn; contradiction|].
      split; [intros Hn; contradiction|]. split; reflexivity.
    + split.
      { split; [intros H0; contradiction|].
        intros (k & _ & H0). contradiction. }
      split; [discriminate|].
      split; [intros k Hk _; injection Hk as <-; repeat split|].
      split; [|split; reflexivity].
      intros _ k. simpl. destruct (Nat.eqb k kobj); reflexivity.
  - intros Hrun. injection Hrun as <- <- <-. split.
    { split; [discriminate|]. intros (k & Hk & _). discriminate. }
    split; [intros _; repeat split|].
    split; [discriminate|].
    split; [intros _ k; reflexivity|]. split; reflexivity.
Qed.

Lemma init_failure_witness :
  clear_sb_ro_init {| created := Some 7%nat; group_status := -17 |}
    sample_state =
  (-17,
   [Kobject_create_and_add (chars "clear_sb_ro") (Some 7%nat);
    Sysfs_create_group 7 attr_group (-17);
    Kobject_put 7],
   add_klog line_loaded sample_state) /\
  forall k,
    kobject_refs k
      [Kobject_create_and_add (chars "clear_sb_ro") (Some 7%nat);
       Sysfs_create_group 7 attr_group (-17);
       Kobject_put 7] = 0.
Proof.
  split; [reflexivity|].
  destruct (init_failure {| created := Some 7%nat; group_status := -17 |}
              sample_state _ _ _ eq_refl) as (_ & _ & _ & Hrefs & _).
  apply Hrefs. discriminate.
Defined.

(** X15.  A load that succeeds registers one group holding the one
    attribute [clear_device], whose callbacks are the show and the store of
    this module, and puts nothing.  Unloading makes no host call: after a
    load and an unload the reference on the kobject is still held and the
    log ends with the two lines of the load and the unload. *)
Theorem load_then_unload (h : host_answers) (s s1 s2 : state) (kobj : nat)
    (ret : Z) (calls calls' : list host_call) :
  created h = Some kobj ->
  group_status h = 0 ->
  clear_sb_ro_init h s = (ret, calls, s1) ->
  clear_sb_ro_exit s1 = (calls', s2) ->
  ret = 0 /\
  calls = [Kobject_create_and_add (chars "clear_sb_ro") (Some kobj);
           Sysfs_create_group kobj [clear_device_attribute] 0] /\
  attr_show clear_device_attribute = clear_device_show /\
  attr_store clear_device_attribute = clear_device_store /\
  calls' = [] /\
  kobject_refs kobj (calls ++ calls') = 1 /\
  klog s2 = klog s ++ [line_loaded; line_unloaded] /\
  clear_device s2 = clear_device s /\ super_blocks s2 = super_blocks s.
Proof.
  intros Hc H0. unfold clear_sb_ro_init, clear_sb_ro_exit.
  rewrite Hc, H0. cbn [Z.eqb app].
  intros Hinit Hexit. injection Hinit as <- <- <-.
  injection Hexit as <- <-.
  split; [reflexivity|]. split; [reflexivity|].
  split; [reflexivity|]. split; [reflexivity|]. split; [reflexivity|].
  split; [simpl; rewrite Nat.eqb_refl; reflexivity|].
  split; [simpl; rewrite <- app_assoc; reflexivity|]. split; reflexivity.
Qed.

Lemma load_then_unload_witness :
  kobject_refs 7
    ([Kobject_create_and_add (chars "clear_sb_ro") (Some 7%nat);
      Sysfs_create_group 7 [clear_device_attribute] 0] ++ []) = 1 /\
  klog (add_klog line_unloaded (add_klog line_loaded sample_state)) =
    klog sample_state ++ [line_loaded; line_unloaded].
Proof.
  destruct (load_then_unload {| created := Some 7%nat; group_status := 0 |}
              sample_state _ _ 7 _ _ _ eq_refl eq_refl eq_refl eq_refl)
    as (_ & _ & _ & _ & _ & Hrefs & Hlog & _).
  split; [exact Hrefs | exact Hlog].
Defined.

(** ** The trimming loop on its own *)

(** X16.  The loop of lines 86-89, run with any [len] inside the buffer:
    it ends with [len] the length of the first [len] bytes trimmed, has
    replaced the newlines and carriage returns it passed by NUL, and has
    touched no byte from the old [len] on, no record and no log line. *)
Theorem trim_loop_spec (s : state) (len : nat) :
  (len <= length (clear_device s))%nat ->
  exists len' s',
    trim_loop len s = Some (len', s') /\
    len' = length (trim (take len (clear_device s))) /\
    (len' <= len)%nat /\
    clear_device s' =
      trim (take len (clear_device s)) ++ replicate (len - len') NUL ++
      drop len (clear_device s) /\
    super_blocks s' = super_blocks s /\ klog s' = klog s.
Proof.
  intros Hlen.
  pose proof (trim_loop_run (take len (clear_device s))
                (drop len (clear_device s)) s
                (eq_sym (take_drop len (clear_device s)))) as Hrun.
  rewrite length_take_le in Hrun by exact Hlen.
  eexists _, _. split; [exact Hrun|]. split; [reflexivity|].
  split.
  - pose proof (trim_length (take len (clear_device s))) as Ht.
    rewrite length_take_le in Ht by exact Hlen. exact Ht.
  - split; [reflexivity|]. split; reflexivity.
Qed.

Lemma trim_loop_spec_witness :
  (6 <= length (clear_device
                  (set_clear_device (chars "sdb" ++ [CR; LF; LF] ++ chars "x")
                     sample_state)))%nat /\
  exists s',
    trim_loop 6
      (set_clear_device (chars "sdb" ++ [CR; LF; LF] ++ chars "x")
         sample_state) = Some (3%nat, s') /\
    clear_device s' = chars "sdb" ++ [NUL; NUL; NUL] ++ chars "x".
Proof.
  split; [vm_compute; lia|].
  destruct (trim_loop_spec
              (set_clear_device (chars "sdb" ++ [CR; LF; LF] ++ chars "x")
                 sample_state) 6)
    as (len' & s' & Hrun & -> & _ & Hcd & _).
  - vm_compute. lia.
  - exists s'. split; [exact Hrun | exact Hcd].
Defined.
